(** * timoavg: the frame capture and export pipeline of the audio visualiser

    A shallow embedding of the [VideoExporter] React component, in its two
    versions that take [VisualizerSettings]:

    - the exporter with visualiser settings only (canvas fixed at 1280x720,
      encoder arguments fixed);
    - the settings-aware exporter, which also takes [ExportSettings]
      (resolution, fps, format, quality).

    JavaScript numbers are modelled as exact rationals ([Q]); the browser
    (image loading, audio decoding, the analyser node, timers) and the
    ffmpeg.wasm instance are modelled by an explicit [World] that fixes the
    outcome of every call the component awaits. *)

From Stdlib Require Import ZArith QArith Qround Lqa Lia List String Ascii.
From Stdlib Require Import Strings.Byte Decimal DecimalString DecimalNat DecimalZ.
From stdpp Require Import gmap strings sorting.
Import ListNotations.

Local Open Scope Z_scope.
Local Open Scope Q_scope.

(** ** JavaScript numbers and strings *)

Module JS.

(** [Math.ceil] and [Math.round] (ties go up: [Math.round(2.5) = 3]). *)
Definition Math_ceil (x : Q) : Z := Qceiling x.
Definition Math_round (x : Q) : Z := Qfloor (x + (1 # 2)).

(** [n.toString()] of a non-negative integer loop counter. *)
Definition toString (n : nat) : string :=
  NilEmpty.string_of_uint (Nat.to_uint n).

(** [n.toString()] of an integer-valued number such as
    [exportSettings.fps]. *)
Definition Z_toString (z : Z) : string :=
  NilEmpty.string_of_int (Z.to_int z).

Fixpoint repeat_char (c : ascii) (k : nat) : string :=
  match k with
  | O => EmptyString
  | S k' => String c (repeat_char c k')
  end.

(** [s.padStart(targetLength, c)] for a one-character pad string. *)
Definition padStart (targetLength : nat) (c : ascii) (s : string) : string :=
  (repeat_char c (targetLength - String.length s) ++ s)%string.

End JS.

(** ** Settings (src/app/page.tsx) *)

Inductive ColorScheme :=
  greenRed | bluePurple | rainbow | white | purpleGold | oceanBlue | sunset | neon.

Inductive Position := bottom | top.

Inductive Shape := rectangle | rounded | pill | triangle.

Record VisualizerSettings := {
  barSpacing : Q;
  barHeight : Q;
  colorScheme : ColorScheme;
  position : Position;
  shape : Shape;
  glow : bool
}.

(** The initial state of the page: [useState<VisualizerSettings>({...})]. *)
Definition defaultSettings : VisualizerSettings :=
  {| barSpacing := 1; barHeight := 7 # 10; colorScheme := greenRed;
     position := bottom; shape := rounded; glow := false |}.

(** ** Colours and canvas operations *)

(** The CSS colour strings built by the template literals of
    [getColorForScheme], kept as their interpolated components. *)
Inductive Color :=
| rgb (r g b : Q)
| hsl (h s l : Q)
| rgba (r g b a : Q).

(** Two colours are the same when their components are equal as numbers. *)
Definition Color_eq (c1 c2 : Color) : Prop :=
  match c1, c2 with
  | rgb r1 g1 b1, rgb r2 g2 b2 => r1 == r2 /\ g1 == g2 /\ b1 == b2
  | hsl h1 s1 l1, hsl h2 s2 l2 => h1 == h2 /\ s1 == s2 /\ l1 == l2
  | rgba r1 g1 b1 a1, rgba r2 g2 b2 a2 =>
      r1 == r2 /\ g1 == g2 /\ b1 == b2 /\ a1 == a2
  | _, _ => False
  end.

(** [getColorForScheme(height, maxHeight)]; the closure reads
    [settings.colorScheme]. *)
Definition getColorForScheme (settings : VisualizerSettings)
    (height maxHeight : Q) : Color :=
  let position := height / maxHeight in
  match colorScheme settings with
  | greenRed => rgb (255 * position) (255 * (1 - position)) 0
  | bluePurple => rgb (255 * position) (100 + 155 * (1 - position)) 255
  | rainbow => let hue := 240 * (1 - position) in hsl hue 100 50
  | purpleGold =>
      rgb (147 + 108 * position) (51 + 191 * position) (234 - 198 * position)
  | oceanBlue =>
      rgb (14 + 59 * position) (165 + (-35) * position) (233 + 13 * position)
  | sunset =>
      rgb (249 - 13 * position) (115 - 43 * position) (22 + 131 * position)
  | neon =>
      rgb (34 + (-14) * position) (197 + (-13) * position) (94 + 72 * position)
  | white => rgba 255 255 255 ((3 # 10) + (7 # 10) * position)
  end.

(** The calls made on the [CanvasRenderingContext2D]. *)
Inductive CanvasOp :=
| clearRect (x y w h : Q)
| drawImage (x y w h : Q)
| set_shadowBlur (blur : Q)
| set_shadowColor (c : Color)
| set_fillStyle (c : Color)
| fillRect (x y w h : Q)
| beginPath
| roundRect (x y w h : Q) (radii : list Q)
| moveTo (x y : Q)
| lineTo (x y : Q)
| closePath
| fill.

(** ** The browser and the encoder, as the component sees them *)

(** A decoded [AudioBuffer]: the component reads [duration] and hands the
    buffer to an [AudioBufferSourceNode]. *)
Record AudioBuffer := {
  duration : Q;
  channelData : list Q
}.

(** The [AnalyserNode] of the Web Audio API is browser code.  A reading
    depends on the buffer being played, on the playback position (seconds
    since [source.start()]) and, through the node's smoothing, on its own
    earlier readings. *)
Record AnalyserNode := {
  AnalyserState : Type;
  createAnalyser : AnalyserState;
  getByteFrequencyData :
    AnalyserState -> AudioBuffer -> Q -> list Byte.byte * AnalyserState
}.

(** [analyser.fftSize = 256], so [frequencyBinCount] is 128. *)
Definition fftSize : nat := 256.
Definition frequencyBinCount : nat := Nat.div fftSize 2.

(** [new Uint8Array(bufferLength)] after the analyser has written into it:
    always [bufferLength] bytes, zero where the analyser wrote nothing. *)
Definition fillUint8Array (bufferLength : nat) (written : list Byte.byte) : list Byte.byte :=
  take bufferLength (written ++ replicate bufferLength Byte.x00).

Definition byteValue (b : Byte.byte) : Q := inject_Z (Z.of_N (Byte.to_N b)).

(** A still image read back from the canvas with [toDataURL]: it is
    determined by the size of the canvas and by what was painted on it. *)
Record Frame := {
  frameWidth : Q;
  frameHeight : Q;
  painted : list CanvasOp
}.

(** What [ffmpeg.writeFile] stores: the base64 payload of a frame, or raw
    bytes such as [fetchFile(audioFile)] yields. *)
Inductive File :=
| base64Jpeg (f : Frame)
| rawBytes (content : list Byte.byte).

(** [URL.createObjectURL(new Blob([data], { type }))]. *)
Record ObjectURL := {
  blobType : string;
  blobData : list Byte.byte
}.

(** Everything the component does that is visible from outside: its three
    callbacks, its reads of the analyser, and its calls on the ffmpeg
    instance.  [ffmpeg_exec] records the virtual file system the encoder
    runs over. *)
Inductive Event :=
| onProgress (progress : Z)
| onComplete (url : ObjectURL)
| onError (error : string)
| analyserRead (playbackPosition : Q) (dataArray : list Byte.byte)
| ffmpeg_writeFile (path : string) (data : File)
| ffmpeg_exec (args : list string) (fs : gmap string File)
| ffmpeg_readFile (path : string).

(** The outcome of every awaited call of one run. *)
Record World := {
  (** [ffmpeg.load] fulfils *)
  ffmpegLoads : bool;
  (** [img.onload] fires for an image with these bytes *)
  imageLoads : list Byte.byte -> bool;
  (** [audioFile.arrayBuffer()] then [decodeAudioData]; [None]: rejected *)
  decodeAudioData : list Byte.byte -> option AudioBuffer;
  (** seconds iteration [frame] of the capture loop takes on top of its
      timer (drawing, JPEG serialisation, [writeFile], timer lateness) *)
  frameCost : nat -> Q;
  (** [ffmpeg.writeFile] of frame [frame] fulfils *)
  writeFileOk : nat -> bool;
  (** [ffmpeg.exec] fulfils *)
  execOk : bool;
  (** [ffmpeg.readFile] of the output file; [None]: rejected *)
  readOutput : option (list Byte.byte)
}.

(** ** Promises *)

(** How an awaited promise ends: fulfilled with a value, rejected (the
    [await] throws), or never settled. *)
Inductive Settled (A : Type) :=
| Fulfilled (a : A)
| Rejected
| Pending.
Arguments Fulfilled {A} a.
Arguments Rejected {A}.
Arguments Pending {A}.

Section Async.

Context {an : AnalyserNode}.

(** The mutable state a run touches: the ffmpeg virtual file system, the
    canvas (every call made on its context so far), the playback position
    of the audio source, the analyser node. *)
Record St := {
  fs : gmap string File;
  canvas : list CanvasOp;
  playback : Q;
  analyser : AnalyserState an
}.

Definition Async (A : Type) : Type := St -> list Event * St * Settled A.

Definition ret {A} (a : A) : Async A := fun st => ([], st, Fulfilled a).

Definition bind {A B} (m : Async A) (k : A -> Async B) : Async B :=
  fun st =>
    match m st with
    | (ev, st', Fulfilled a) =>
        let '(ev', st'', r) := k a st' in (ev ++ ev', st'', r)
    | (ev, st', Rejected) => (ev, st', Rejected)
    | (ev, st', Pending) => (ev, st', Pending)
    end.

(** [try { body } catch (error) { handler }]. *)
Definition tryCatch (body handler : Async unit) : Async unit :=
  fun st =>
    match body st with
    | (ev, st', Rejected) =>
        let '(ev', st'', r) := handler st' in (ev ++ ev', st'', r)
    | other => other
    end.

Definition emit (e : Event) : Async unit := fun st => ([e], st, Fulfilled tt).

Definition throw {A} : Async A := fun st => ([], st, Rejected).

End Async.

Arguments St : clear implicits.
Arguments Async : clear implicits.

(** The promise monad uses stdpp's [x ← m; k] and [m ;; k] notations. *)
#[global] Instance Async_ret {an} : MRet (Async an) := @ret an.
#[global] Instance Async_bind {an} : MBind (Async an) :=
  fun A B k m => bind m k.

(** ** Export settings *)

(** Modelled from the spec: the [ExportSettings] interface, which the
    settings-aware exporter imports from the page but whose declaration is
    not among the sources.  The exporter compares [resolution] with
    ['1080p'], [format] with ['webm'], indexes a bitrate table by [quality]
    and prints [fps]. *)
Inductive Resolution := res720p | res1080p.
Inductive Format := mp4 | webm.
Inductive Quality := high | medium | low.

Record ExportSettings := {
  resolution : Resolution;
  fps : Z;
  format : Format;
  quality : Quality
}.

(** ** The exporter *)

(** [`frame${frame.toString().padStart(6, '0')}.jpg`] *)
Definition frameKey (frame : nat) : string :=
  ("frame" ++ JS.padStart 6 "0"%char (JS.toString frame) ++ ".jpg")%string.

(** [for (let frame = 0; frame < totalFrames.current; frame++) body]:
    [count] iterations remain and the counter stands at [frame]. *)
Fixpoint forFrames {an} (body : nat -> Async an unit) (count frame : nat)
    : Async an unit :=
  match count with
  | O => mret tt
  | S count' => body frame ;; forFrames body count' (S frame)
  end.

Module Exporter.
Section Exporter.

Context {an : AnalyserNode}.

(** The two versions of the component differ in the size of the canvas
    made by [setupCanvas], in the shadow set before each bar, in the
    arguments of [ffmpeg.exec] and in the name and type of the output. *)
Variables canvasWidth canvasHeight : Q.
Variable shadowOps : VisualizerSettings -> Color -> list CanvasOp.
Variable encoderArgs : list string.
Variables outputFile mimeType : string.

(** The props of the component. *)
Variables audioFile imageFile : list Byte.byte.
Variable settings : VisualizerSettings.

(** *** setupCanvas *)

Definition setupCanvas (w : World) : Async an unit :=
  fun st =>
    let st' := {| fs := fs st; canvas := []; playback := playback st;
                  analyser := analyser st |} in
    (* [img.onload = () => resolve()]: nothing settles the promise when
       the image fails to load *)
    if imageLoads w imageFile then ([], st', Fulfilled tt)
    else ([], st', Pending).

(** *** captureFrames *)

Definition fps : Q := 30.

Definition totalFrames (audioBuffer : AudioBuffer) : Z :=
  JS.Math_ceil (duration audioBuffer * fps).

Definition bufferLength : nat := frequencyBinCount.

Definition maxBarHeight : Q := 720 * (3 # 10).

Definition totalWidth : Q := 1280.
Definition totalBars : Q := inject_Z (Z.of_nat bufferLength).
Definition totalSpacing : Q := (totalBars - 1) * barSpacing settings.
Definition barWidth : Q := (totalWidth - totalSpacing) / totalBars.

(** [const barHeight = (dataArray[i] * settings.barHeight) * (maxBarHeight / 255)] *)
Definition barHeightPx (v : Byte.byte) : Q :=
  (byteValue v * barHeight settings) * (maxBarHeight / 255).

(** [const y = settings.position === 'bottom' ? 720 - barHeight : 0] *)
Definition barY (h : Q) : Q :=
  match position settings with
  | bottom => 720 - h
  | top => 0
  end.

(** The body of [for (let i = 0; i < bufferLength; i++)]. *)
Definition drawBar (i : nat) (v : Byte.byte) : list CanvasOp :=
  let x := inject_Z (Z.of_nat i) * barWidth in
  let h := barHeightPx v in
  let y := barY h in
  let color := getColorForScheme settings h maxBarHeight in
  shadowOps settings color ++
  set_fillStyle color ::
  match shape settings with
  | rectangle => [fillRect x y barWidth h]
  | rounded =>
      [beginPath;
       roundRect x y barWidth h
         match position settings with
         | bottom => [4; 4; 0; 0]
         | top => [0; 0; 4; 4]
         end;
       fill]
  | pill =>
      let radius := barWidth / 2 in
      [beginPath;
       roundRect x y barWidth h
         match position settings with
         | bottom => [radius; radius; 0; 0]
         | top => [0; 0; radius; radius]
         end;
       fill]
  | triangle =>
      beginPath ::
      match position settings with
      | bottom =>
          [moveTo x 720; lineTo (x + barWidth / 2) (720 - h);
           lineTo (x + barWidth) 720]
      | top =>
          [moveTo x 0; lineTo (x + barWidth / 2) h;
           lineTo (x + barWidth) 0]
      end ++ [closePath; fill]
  end.

Fixpoint drawBars (i : nat) (dataArray : list Byte.byte) : list CanvasOp :=
  match dataArray with
  | [] => []
  | v :: rest => drawBar i v ++ drawBars (S i) rest
  end.

(** Clear, draw the background, draw the bars. *)
Definition renderFrame (dataArray : list Byte.byte) : list CanvasOp :=
  clearRect 0 0 1280 720 :: drawImage 0 0 1280 720 :: drawBars 0 dataArray.

(** [createAnalyser()], [createBufferSource()], [source.start()]. *)
Definition startSource : Async an unit :=
  fun st =>
    ([], {| fs := fs st; canvas := canvas st; playback := 0;
            analyser := createAnalyser an |}, Fulfilled tt).

(** [analyser.getByteFrequencyData(dataArray)] *)
Definition readAnalyser (audioBuffer : AudioBuffer) : Async an (list Byte.byte) :=
  fun st =>
    let '(written, a') :=
      getByteFrequencyData an (analyser st) audioBuffer (playback st) in
    let dataArray := fillUint8Array bufferLength written in
    ([analyserRead (playback st) dataArray],
     {| fs := fs st; canvas := canvas st; playback := playback st;
        analyser := a' |},
     Fulfilled dataArray).

Definition paint (ops : list CanvasOp) : Async an unit :=
  fun st =>
    ([], {| fs := fs st; canvas := canvas st ++ ops; playback := playback st;
            analyser := analyser st |}, Fulfilled tt).

(** [canvasRef.current!.toDataURL('image/jpeg', 0.95)] *)
Definition toDataURL : Async an Frame :=
  fun st =>
    ([], st, Fulfilled {| frameWidth := canvasWidth;
                           frameHeight := canvasHeight;
                           painted := canvas st |}).

(** [await ffmpeg.writeFile(path, data)] in iteration [frame]. *)
Definition writeFile (w : World) (frame : nat) (path : string) (data : File)
    : Async an unit :=
  fun st =>
    if writeFileOk w frame then
      ([ffmpeg_writeFile path data],
       {| fs := <[path := data]> (fs st); canvas := canvas st;
          playback := playback st; analyser := analyser st |},
       Fulfilled tt)
    else ([ffmpeg_writeFile path data], st, Rejected).

(** [await new Promise(resolve => setTimeout(resolve, 1000 / fps))]: by
    the time iteration [frame] is over, playback has moved on by the
    timer delay and by what the iteration cost. *)
Definition nextFrameTime (w : World) (frame : nat) : Async an unit :=
  fun st =>
    ([], {| fs := fs st; canvas := canvas st;
            playback := playback st + (frameCost w frame + 1 / fps);
            analyser := analyser st |}, Fulfilled tt).

(** The body of the capture loop.  ([frameCount.current = frame] writes a
    ref that is never read.) *)
Definition captureFrame (w : World) (audioBuffer : AudioBuffer)
    (frame : nat) : Async an unit :=
  dataArray ← readAnalyser audioBuffer;
  paint (renderFrame dataArray);;
  frameData ← toDataURL;
  writeFile w frame (frameKey frame) (base64Jpeg frameData);;
  emit (onProgress
          (JS.Math_round
             (inject_Z (Z.of_nat frame) / inject_Z (totalFrames audioBuffer) * 70)
           + 20)%Z);;
  nextFrameTime w frame.

(** [ffmpegRef.current] was set by [load], so the guard at the top does
    not return; [source.stop()] after the loop changes nothing that is
    observed. *)
Definition captureFrames (w : World) (audioBuffer : AudioBuffer)
    : Async an unit :=
  startSource;;
  forFrames (captureFrame w audioBuffer)
    (Z.to_nat (totalFrames audioBuffer)) 0.

(** *** exportVideo and load *)

Definition decodeAudio (w : World) : Async an AudioBuffer :=
  match decodeAudioData w audioFile with
  | Some audioBuffer => mret audioBuffer
  | None => throw
  end.

(** [await ffmpeg.exec(args)] *)
Definition exec (w : World) (args : list string) : Async an unit :=
  fun st =>
    ([ffmpeg_exec args (fs st)], st,
     if execOk w then Fulfilled tt else Rejected).

(** [await ffmpeg.readFile(path)] *)
Definition readFile (w : World) (path : string) : Async an (list Byte.byte) :=
  fun st =>
    ([ffmpeg_readFile path], st,
     match readOutput w with
     | Some data => Fulfilled data
     | None => Rejected
     end).

(** The body of [exportVideo] is one [try] block whose [catch] invokes
    [onError].  What [ffmpeg.exec] resolves to is discarded; creating and
    closing the [AudioContext] is not modelled. *)
Definition exportVideo (w : World) : Async an unit :=
  tryCatch
    (emit (onProgress 0);;
     setupCanvas w;;
     emit (onProgress 10);;
     audioBuffer ← decodeAudio w;
     emit (onProgress 20);;
     captureFrames w audioBuffer;;
     exec w encoderArgs;;
     emit (onProgress 90);;
     data ← readFile w outputFile;
     emit (onProgress 100);;
     emit (onComplete {| blobType := mimeType; blobData := data |}))
    (emit (onError "Failed to export video")).

(** [await ffmpeg.load({...})] *)
Definition ffmpegLoad (w : World) : Async an unit :=
  if ffmpegLoads w then mret tt else throw.

Definition load (w : World) : Async an unit :=
  tryCatch
    (ffmpegLoad w;; exportVideo w)
    (emit (onError "Failed to load FFmpeg")).

(** [new FFmpeg()]: an empty virtual file system; nothing is playing. *)
Definition mounted : St an :=
  {| fs := ∅; canvas := []; playback := 0; analyser := createAnalyser an |}.

(** One run: the effect of mounting the component. *)
Definition run (w : World) : list Event * St an * Settled unit :=
  load w mounted.

End Exporter.
End Exporter.

(** *** The exporter with visualiser settings *)

Module VideoExporter.

Record Props := {
  audioFile : list Byte.byte;
  imageFile : list Byte.byte;
  settings : VisualizerSettings
}.

(** [canvas.width = 1280; canvas.height = 720] *)
Definition canvasWidth : Q := 1280.
Definition canvasHeight : Q := 720.

(** This version sets no shadow. *)
Definition shadowOps (_ : VisualizerSettings) (_ : Color) : list CanvasOp := [].

Definition encoderArgs : list string :=
  ["-framerate"; "30";
   "-i"; "frame%06d.jpg";
   "-i"; "input.mp3";
   "-c:v"; "libx264";
   "-c:a"; "aac";
   "-pix_fmt"; "yuv420p";
   "-shortest";
   "output.mp4"]%string.

Definition outputFile : string := "output.mp4".
Definition mimeType : string := "video/mp4".

Definition captureFrames {an} (props : Props) :=
  @Exporter.captureFrames an canvasWidth canvasHeight shadowOps
    (settings props).

Definition exportVideo {an} (props : Props) :=
  @Exporter.exportVideo an canvasWidth canvasHeight shadowOps encoderArgs
    outputFile mimeType (audioFile props) (imageFile props) (settings props).

Definition run {an} (props : Props) (w : World) :=
  @Exporter.run an canvasWidth canvasHeight shadowOps encoderArgs
    outputFile mimeType (audioFile props) (imageFile props) (settings props) w.

End VideoExporter.

(** *** The settings-aware exporter *)

Module SettingsExporter.

Record Props := {
  audioFile : list Byte.byte;
  imageFile : list Byte.byte;
  settings : VisualizerSettings;
  exportSettings : ExportSettings
}.

(** [exportSettings.resolution === '1080p' ? 1920 : 1280], and likewise
    for the height. *)
Definition canvasWidth (es : ExportSettings) : Q :=
  match resolution es with res1080p => 1920 | _ => 1280 end.
Definition canvasHeight (es : ExportSettings) : Q :=
  match resolution es with res1080p => 1080 | _ => 720 end.

(** [if (settings.glow) { shadowBlur = 15; shadowColor = color }
     else { shadowBlur = 0 }] *)
Definition shadowOps (settings : VisualizerSettings) (color : Color)
    : list CanvasOp :=
  if glow settings then [set_shadowBlur 15; set_shadowColor color]
  else [set_shadowBlur 0].

Definition outputExt (es : ExportSettings) : string :=
  match format es with webm => "webm" | _ => "mp4" end.
Definition codec (es : ExportSettings) : string :=
  match format es with webm => "libvpx-vp9" | _ => "libx264" end.
Definition bitrate (es : ExportSettings) : string :=
  match quality es with high => "8M" | medium => "4M" | low => "2M" end.

Definition outputFile (es : ExportSettings) : string :=
  ("output." ++ outputExt es)%string.
Definition mimeType (es : ExportSettings) : string :=
  match format es with webm => "video/webm" | _ => "video/mp4" end.

Definition encoderArgs (es : ExportSettings) : list string :=
  ["-framerate"; JS.Z_toString (fps es);
   "-i"; "frame%06d.jpg";
   "-i"; "input.mp3";
   "-c:v"; codec es;
   "-c:a"; match format es with webm => "libvorbis" | _ => "aac" end;
   "-b:v"; bitrate es;
   "-pix_fmt"; "yuv420p";
   "-shortest";
   outputFile es]%string.

Definition captureFrames {an} (props : Props) :=
  @Exporter.captureFrames an (canvasWidth (exportSettings props))
    (canvasHeight (exportSettings props)) shadowOps (settings props).

Definition exportVideo {an} (props : Props) :=
  @Exporter.exportVideo an (canvasWidth (exportSettings props))
    (canvasHeight (exportSettings props)) shadowOps
    (encoderArgs (exportSettings props)) (outputFile (exportSettings props))
    (mimeType (exportSettings props))
    (audioFile props) (imageFile props) (settings props).

Definition run {an} (props : Props) (w : World) :=
  @Exporter.run an (canvasWidth (exportSettings props))
    (canvasHeight (exportSettings props)) shadowOps
    (encoderArgs (exportSettings props)) (outputFile (exportSettings props))
    (mimeType (exportSettings props))
    (audioFile props) (imageFile props) (settings props) w.

End SettingsExporter.

(** ** Projections of a run *)

Definition events {an A} (r : list Event * St an * Settled A) : list Event :=
  r.1.1.
Definition outcome {an A} (r : list Event * St an * Settled A) : Settled A :=
  r.2.

Definition writtenKeyOf (e : Event) : option string :=
  match e with ffmpeg_writeFile path _ => Some path | _ => None end.
Definition readOf (e : Event) : option (Q * list Byte.byte) :=
  match e with analyserRead t d => Some (t, d) | _ => None end.

Definition writtenKeys (evs : list Event) : list string := omap writtenKeyOf evs.
Definition analyserReads (evs : list Event) : list (Q * list Byte.byte) :=
  omap readOf evs.

(** The spectra a run draws, in frame order. *)
Definition spectra {an A} (r : list Event * St an * Settled A)
    : list (list Byte.byte) :=
  map snd (analyserReads (events r)).

(** The events of the capture loop. *)
Definition isCaptureEvent (e : Event) : Prop :=
  match e with
  | analyserRead _ _ | ffmpeg_writeFile _ _ | onProgress _ => True
  | _ => False
  end.

(** ** Sample worlds *)

(** An analyser stand-in that reports, in every bin, how many sixtieths
    of a second of the buffer have played (modulo 256): a reading that
    moves with the playback position, as any analyser's does. *)
Definition sampleCounter : AnalyserNode :=
  {| AnalyserState := unit;
     createAnalyser := tt;
     getByteFrequencyData _ audioBuffer t :=
       (replicate 128
          (default Byte.x00
             (Byte.of_N (Z.to_N (Qfloor (t * 60) mod 256)))), tt) |}.

Definition clip (seconds : Q) : AudioBuffer :=
  {| duration := seconds; channelData := [] |}.

(** Everything succeeds; the audio decodes to [buffer]; every iteration of
    the capture loop costs [cost] seconds on top of its timer. *)
Definition smoothWorld (buffer : AudioBuffer) (cost : Q) : World :=
  {| ffmpegLoads := true;
     imageLoads _ := true;
     decodeAudioData _ := Some buffer;
     frameCost _ := cost;
     writeFileOk _ := true;
     execOk := true;
     readOutput := Some [] |}.

(** A world on the 0.1 s clip in which things go wrong where asked:
    [ffmpeg.load], the image, the decoding, the [writeFile] of one frame,
    [ffmpeg.exec], or reading the output. *)
Definition troubledWorld (loads image decodes : bool) (failingFrame : option nat)
    (execFulfils : bool) (output : option (list Byte.byte)) : World :=
  {| ffmpegLoads := loads;
     imageLoads _ := image;
     decodeAudioData _ := if decodes then Some (clip (1 # 10)) else None;
     frameCost _ := 0;
     writeFileOk frame :=
       match failingFrame with
       | Some k => negb (Nat.eqb frame k)
       | None => true
       end;
     execOk := execFulfils;
     readOutput := output |}.

(** Sample props for the two exporters. *)
Definition sampleProps : VideoExporter.Props :=
  {| VideoExporter.audioFile := []; VideoExporter.imageFile := [];
     VideoExporter.settings := defaultSettings |}.

Definition props60 : SettingsExporter.Props :=
  {| SettingsExporter.audioFile := []; SettingsExporter.imageFile := [];
     SettingsExporter.settings := defaultSettings;
     SettingsExporter.exportSettings :=
       {| resolution := res720p; fps := 60; format := mp4; quality := high |} |}.

(** ** The trace of a run, in closed form *)

(** The index that the encoder's input pattern [frame%06d.jpg] gives a
    path: the number printed between [frame] and [.jpg]. *)
Fixpoint stripSuffix (suffix s : string) : option string :=
  if String.eqb s suffix then Some EmptyString
  else match s with
       | EmptyString => None
       | String c rest => String c <$> stripSuffix suffix rest
       end.

Definition frameIndexOfKey (path : string) : option nat :=
  match path with
  | String "f" (String "r" (String "a" (String "m" (String "e" rest)))) =>
      digits ← stripSuffix ".jpg" rest;
      Nat.of_uint <$> NilEmpty.uint_of_string digits
  | _ => None
  end.

(** The number of leading iterations, out of [count] starting at [frame],
    whose [writeFile] fulfils. *)
Fixpoint framesWritten (w : World) (count frame : nat) : nat :=
  match count with
  | O => O
  | S count' =>
      if writeFileOk w frame then S (framesWritten w count' (S frame)) else O
  end.

(** The sum of [frameCost] over the iterations before [frame]. *)
Fixpoint costBefore (w : World) (frame : nat) : Q :=
  match frame with
  | O => 0
  | S f => costBefore w f + frameCost w f
  end.

Module Trace.
Section Trace.

Context {an : AnalyserNode}.
Variables canvasWidth canvasHeight : Q.
Variable shadowOps : VisualizerSettings -> Color -> list CanvasOp.
Variable encoderArgs : list string.
Variables outputFile mimeType : string.
Variable settings : VisualizerSettings.
Variable w : World.
Variable audioBuffer : AudioBuffer.

(** The state in which the capture loop reaches iteration [frame], when
    every earlier [writeFile] fulfilled. *)
Fixpoint playbackAt (frame : nat) : Q :=
  match frame with
  | O => 0
  | S f => playbackAt f + (frameCost w f + 1 / Exporter.fps)
  end.

Fixpoint analyserAt (frame : nat) : AnalyserState an :=
  match frame with
  | O => createAnalyser an
  | S f =>
      (getByteFrequencyData an (analyserAt f) audioBuffer (playbackAt f)).2
  end.

(** The [dataArray] that iteration [frame] draws. *)
Definition spectrumAt (frame : nat) : list Byte.byte :=
  fillUint8Array Exporter.bufferLength
    (getByteFrequencyData an (analyserAt frame) audioBuffer
       (playbackAt frame)).1.

Fixpoint canvasAt (frame : nat) : list CanvasOp :=
  match frame with
  | O => []
  | S f => canvasAt f ++ Exporter.renderFrame shadowOps settings (spectrumAt f)
  end.

Definition imageAt (frame : nat) : Frame :=
  {| frameWidth := canvasWidth; frameHeight := canvasHeight;
     painted := canvasAt (S frame) |}.

Fixpoint fsAt (frame : nat) : gmap string File :=
  match frame with
  | O => ∅
  | S f => <[frameKey f := base64Jpeg (imageAt f)]> (fsAt f)
  end.

Definition stateAt (frame : nat) : St an :=
  {| fs := fsAt frame; canvas := canvasAt frame;
     playback := playbackAt frame; analyser := analyserAt frame |}.

(** Iteration [frame] was entered but its [writeFile] rejected. *)
Definition stateFailedAt (frame : nat) : St an :=
  {| fs := fsAt frame; canvas := canvasAt (S frame);
     playback := playbackAt frame; analyser := analyserAt (S frame) |}.

Definition renderProgress (frame : nat) : Z :=
  (JS.Math_round
     (inject_Z (Z.of_nat frame) / inject_Z (Exporter.totalFrames audioBuffer)
      * 70) + 20)%Z.

(** What iteration [frame] does up to its [writeFile], and after it. *)
Definition frameAttempt (frame : nat) : list Event :=
  [analyserRead (playbackAt frame) (spectrumAt frame);
   ffmpeg_writeFile (frameKey frame) (base64Jpeg (imageAt frame))].

Definition frameEvents (frame : nat) : list Event :=
  frameAttempt frame ++ [onProgress (renderProgress frame)].

(** The capture loop over [count] frames from frame 0. *)
Definition captureTrace (count : nat) : list Event :=
  let k := framesWritten w count 0 in
  flat_map frameEvents (seq 0 k)
  ++ (if decide (k < count)%nat then frameAttempt k else []).

(** What [exportVideo] does once every frame is captured. *)
Definition encodeTrace (count : nat) : list Event :=
  ffmpeg_exec encoderArgs (fsAt count) ::
  if execOk w then
    onProgress 90 :: ffmpeg_readFile outputFile ::
    match readOutput w with
    | Some data =>
        [onProgress 100;
         onComplete {| blobType := mimeType; blobData := data |}]
    | None => [onError "Failed to export video"]
    end
  else [onError "Failed to export video"].

(** [exportVideo] from the decoded audio on. *)
Definition exportTrace : list Event :=
  let count := Z.to_nat (Exporter.totalFrames audioBuffer) in
  onProgress 0 :: onProgress 10 :: onProgress 20 ::
  captureTrace count
  ++ (if decide (framesWritten w count 0 < count)%nat
      then [onError "Failed to export video"]
      else encodeTrace count).



End Trace.
End Trace.

(** A [clearRect] or [drawImage] that covers 1280 by 720 pixels from the
    origin; any other call. *)
Definition coversHD (op : CanvasOp) : Prop :=
  match op with
  | clearRect x y cw ch | drawImage x y cw ch =>
      x = 0 /\ y = 0 /\ cw = 1280 /\ ch = 720
  | _ => True
  end.

(** ** The other drawing loops *)

(** The horizontal extent (left edge, right edge) of each bar that a list
    of canvas calls fills: a [fillRect], a [roundRect], or the triangle
    [moveTo], [lineTo], [lineTo]. *)
Fixpoint barSpans (ops : list CanvasOp) : list (Q * Q) :=
  match ops with
  | [] => []
  | fillRect x _ w _ :: rest => (x, x + w) :: barSpans rest
  | roundRect x _ w _ _ :: rest => (x, x + w) :: barSpans rest
  | moveTo x0 _ :: lineTo _ _ :: lineTo x2 _ :: rest => (x0, x2) :: barSpans rest
  | _ :: rest => barSpans rest
  end.

(** *** The preview with visualiser settings (src/app/page.tsx, [draw]) *)

Module Preview.
Section Preview.

Variable settings : VisualizerSettings.

(** [canvas.width = 1280; canvas.height = 720] in [setupVisualizer]. *)
Definition canvasWidth : Q := 1280.
Definition canvasHeight : Q := 720.

Definition bufferLength : nat := frequencyBinCount.

Definition totalWidth : Q := canvasWidth.
Definition totalBars : Q := inject_Z (Z.of_nat bufferLength).
Definition totalSpacing : Q := (totalBars - 1) * barSpacing settings.
Definition barWidth : Q := (totalWidth - totalSpacing) / totalBars.
Definition maxBarHeight : Q := canvasHeight * (3 # 10).

(** The body of the loop over the bins, with the pen at [x]. *)
Definition drawBar (x : Q) (v : Byte.byte) : list CanvasOp :=
  let h := (byteValue v * barHeight settings) * (maxBarHeight / 255) in
  let y := match position settings with
           | bottom => canvasHeight - h
           | top => 0
           end in
  let color := getColorForScheme settings h maxBarHeight in
  (if glow settings then [set_shadowBlur 15; set_shadowColor color]
   else [set_shadowBlur 0]) ++
  set_fillStyle color ::
  match shape settings with
  | rectangle => [fillRect x y barWidth h]
  | rounded =>
      [beginPath;
       roundRect x y barWidth h
         match position settings with
         | bottom => [4; 4; 0; 0]
         | top => [0; 0; 4; 4]
         end;
       fill]
  | pill =>
      let radius := barWidth / 2 in
      [beginPath;
       roundRect x y barWidth h
         match position settings with
         | bottom => [radius; radius; 0; 0]
         | top => [0; 0; radius; radius]
         end;
       fill]
  | triangle =>
      beginPath ::
      match position settings with
      | bottom =>
          [moveTo x canvasHeight; lineTo (x + barWidth / 2) (canvasHeight - h);
           lineTo (x + barWidth) canvasHeight]
      | top =>
          [moveTo x 0; lineTo (x + barWidth / 2) h;
           lineTo (x + barWidth) 0]
      end ++ [closePath; fill]
  end.

(** [let x = 0; for (...) { ...; x += barWidth + settings.barSpacing }] *)
Fixpoint drawBars (x : Q) (dataArray : list Byte.byte) : list CanvasOp :=
  match dataArray with
  | [] => []
  | v :: rest =>
      drawBar x v ++ drawBars (x + (barWidth + barSpacing settings)) rest
  end.

(** One tick of [draw], once the context, the analyser and the image are
    there. *)
Definition draw (dataArray : list Byte.byte) : list CanvasOp :=
  clearRect 0 0 canvasWidth canvasHeight ::
  drawImage 0 0 canvasWidth canvasHeight ::
  drawBars 0 dataArray.

End Preview.
End Preview.

(** *** The exporter without settings (src/components/VideoProcessor.tsx,
    third [captureFrames]) *)

Module LegacyExporter.

(** A bar filled with [createLinearGradient(x0, y0, x1, y1)] and two colour
    stops: [fillRect(x, y, w, h)]. *)
Record GradientBar := {
  gradientFrom : Q * Q;
  gradientTo : Q * Q;
  colorStops : list (Q * string);
  barX : Q;
  barTop : Q;
  barW : Q;
  barH : Q
}.

(** [const barWidth = (1280 / bufferLength) * 2.5] *)
Definition barWidth : Q :=
  (1280 / inject_Z (Z.of_nat frequencyBinCount)) * (5 # 2).

(** [let x = 0; for (...) { const barHeight = dataArray[i] * 2; ...;
    x += barWidth + 1 }] *)
Fixpoint drawBars (x : Q) (dataArray : list Byte.byte) : list GradientBar :=
  match dataArray with
  | [] => []
  | v :: rest =>
      let barHeight := byteValue v * 2 in
      {| gradientFrom := (0, 720);
         gradientTo := (0, 720 - barHeight);
         colorStops := [(0, "#00ff00"%string); (1, "#ff0000"%string)];
         barX := x; barTop := 720 - barHeight;
         barW := barWidth; barH := barHeight |}
      :: drawBars (x + (barWidth + 1)) rest
  end.

End LegacyExporter.

(** *** The stand-alone visualiser (src/components/AudioVisualizer.tsx) *)

Module AudioVisualizer.

(** [<canvas width={800} height={200}>] *)
Definition WIDTH : Q := 800.
Definition HEIGHT : Q := 200.

(** [const barWidth = (WIDTH / bufferLength) * 2.5] *)
Definition barWidth : Q :=
  (WIDTH / inject_Z (Z.of_nat frequencyBinCount)) * (5 # 2).

(** The loop of [renderFrame]: [barHeight = dataArray[i] * 1.5], fill colour
    [rgb(barHeight + 25, 250, 50)], [x += barWidth + 1]. *)
Fixpoint drawBars (x : Q) (dataArray : list Byte.byte) : list CanvasOp :=
  match dataArray with
  | [] => []
  | v :: rest =>
      let barHeight := byteValue v * (3 # 2) in
      let r := barHeight + 25 in
      set_fillStyle (rgb r 250 50)
      :: fillRect x (HEIGHT - barHeight) barWidth barHeight
      :: drawBars (x + (barWidth + 1)) rest
  end.

(** [renderFrame]: [x = 0], black background, then the bars. *)
Definition renderFrame (dataArray : list Byte.byte) : list CanvasOp :=
  set_fillStyle (rgb 0 0 0) :: fillRect 0 0 WIDTH HEIGHT
  :: drawBars 0 dataArray.

End AudioVisualizer.

(** ** The ffmpeg-only processor (src/components/VideoProcessor.tsx, first
    version) *)

Module Processor.

(** The outcome of the calls [processVideo] awaits.  The encoder is a black
    box on the virtual file system: it rejects, or fulfils and leaves the
    file system in a new state. *)
Record World := {
  (** [fetchFile(file)] fulfils with the bytes of the file *)
  fetchFileOk : list Byte.byte -> bool;
  (** [ffmpeg.writeFile(path, data)] fulfils *)
  writeFileOk : string -> bool;
  (** [ffmpeg.exec(args)] on a file system *)
  encode : list string -> gmap string File -> option (gmap string File);
  (** [ffmpeg.deleteFile(path)] fulfils *)
  deleteFileOk : string -> bool
}.

(** The state of the component and of its ffmpeg instance. *)
Record St := {
  fs : gmap string File;
  (** [videoUrl]: the type and the content of the blob behind the URL *)
  videoUrl : option (string * File);
  (** calls of [console.error] *)
  errors : nat;
  (** the arguments and the file system of each [ffmpeg.exec] *)
  execCalls : list (list string * gmap string File)
}.

(** A step either goes on with a value or throws. *)
Definition Step (A : Type) : Type := St -> St * option A.

#[global] Instance Step_ret : MRet Step := fun A a st => (st, Some a).
#[global] Instance Step_bind : MBind Step :=
  fun A B k m st =>
    match m st with
    | (st', Some a) => k a st'
    | (st', None) => (st', None)
    end.

Definition fetchFile (w : World) (file : list Byte.byte) : Step (list Byte.byte) :=
  fun st => (st, if fetchFileOk w file then Some file else None).

Definition writeFile (w : World) (path : string) (data : list Byte.byte)
    : Step unit :=
  fun st =>
    if writeFileOk w path then
      ({| fs := <[path := rawBytes data]> (fs st); videoUrl := videoUrl st;
          errors := errors st; execCalls := execCalls st |}, Some tt)
    else (st, None).

Definition exec (w : World) (args : list string) : Step unit :=
  fun st =>
    let called := execCalls st ++ [(args, fs st)] in
    match encode w args (fs st) with
    | Some fs' =>
        ({| fs := fs'; videoUrl := videoUrl st; errors := errors st;
            execCalls := called |}, Some tt)
    | None =>
        ({| fs := fs st; videoUrl := videoUrl st; errors := errors st;
            execCalls := called |}, None)
    end.

(** [ffmpeg.readFile(path)]: there is nothing to fulfil with when the file
    is not there. *)
Definition readFile (path : string) : Step File :=
  fun st => (st, fs st !! path).

Definition setVideoUrl (type : string) (data : File) : Step unit :=
  fun st =>
    ({| fs := fs st; videoUrl := Some (type, data); errors := errors st;
        execCalls := execCalls st |}, Some tt).

Definition deleteFile (w : World) (path : string) : Step unit :=
  fun st =>
    if deleteFileOk w path then
      ({| fs := delete path (fs st); videoUrl := videoUrl st;
          errors := errors st; execCalls := execCalls st |}, Some tt)
    else (st, None).

Definition execArgs : list string :=
  ["-i"; "image.jpg";
   "-i"; "audio.mp3";
   "-filter_complex";
   "[0:v]scale=1280:720,loop=loop=-1:size=1[v];[1:a]showwaves=s=1280x720:mode=line:rate=25:colors=white|blue@0.5,colorkey=black:0.01:0.1[waves];[v][waves]overlay=format=auto,format=yuv420p[out]";
   "-map"; "[out]";
   "-map"; "1:a";
   "-c:v"; "libx264";
   "-preset"; "veryfast";
   "-crf"; "23";
   "-c:a"; "aac";
   "-b:a"; "128k";
   "-shortest";
   "output.mp4"]%string.

(** The [try] block of [processVideo]. *)
Definition processSteps (audioFile imageFile : list Byte.byte) (w : World)
    : Step unit :=
  audio ← fetchFile w audioFile;
  writeFile w "audio.mp3" audio;;
  image ← fetchFile w imageFile;
  writeFile w "image.jpg" image;;
  exec w execArgs;;
  data ← readFile "output.mp4";
  setVideoUrl "video/mp4" data;;
  deleteFile w "audio.mp3";;
  deleteFile w "image.jpg";;
  deleteFile w "output.mp4".

(** [processVideo]: nothing without a loaded ffmpeg or when not processing;
    the [catch] only logs. *)
Definition processVideo (ffmpegLoaded isProcessing : bool)
    (audioFile imageFile : list Byte.byte) (w : World) (st : St) : St :=
  if negb ffmpegLoaded || negb isProcessing then st
  else
    match processSteps audioFile imageFile w st with
    | (st', Some _) => st'
    | (st', None) =>
        {| fs := fs st'; videoUrl := videoUrl st'; errors := S (errors st');
           execCalls := execCalls st' |}
    end.

(** [ffmpeg.on('progress', ({ progress }) =>
      setProgress(Math.round(progress * 100)))] *)
Definition onFfmpegProgress (progress : Q) : Z := JS.Math_round (progress * 100).

End Processor.

(** ** The page (src/app/page.tsx, first version) *)

Module Home.

(** A dropped [File]: its name, its MIME type and its bytes. *)
Record DroppedFile := {
  fileName : string;
  fileType : string;
  fileBytes : list Byte.byte
}.

Record State := {
  audioFile : option DroppedFile;
  imageFile : option DroppedFile;
  isProcessing : bool;
  isPreviewing : bool;
  isPreviewReady : bool;
  exportProgress : Z;
  exportError : option string;
  exportedVideoUrl : option ObjectURL
}.

(** The [useState] initial values. *)
Definition initial : State :=
  {| audioFile := None; imageFile := None; isProcessing := false;
     isPreviewing := false; isPreviewReady := false; exportProgress := 0%Z;
     exportError := None; exportedVideoUrl := None |}.

(** [file && file.type.startsWith(prefix)] for [file = acceptedFiles[0]] *)
Definition accepted (prefix : string) (acceptedFiles : list DroppedFile)
    : option DroppedFile :=
  match acceptedFiles with
  | file :: _ => if String.prefix prefix (fileType file) then Some file else None
  | [] => None
  end.

Definition onDropAudio (acceptedFiles : list DroppedFile) (st : State) : State :=
  match accepted "audio/" acceptedFiles with
  | Some file =>
      {| audioFile := Some file; imageFile := imageFile st;
         isProcessing := isProcessing st; isPreviewing := isPreviewing st;
         isPreviewReady := isPreviewReady st;
         exportProgress := exportProgress st; exportError := exportError st;
         exportedVideoUrl := exportedVideoUrl st |}
  | None => st
  end.

Definition onDropImage (acceptedFiles : list DroppedFile) (st : State) : State :=
  match accepted "image/" acceptedFiles with
  | Some file =>
      {| audioFile := audioFile st; imageFile := Some file;
         isProcessing := isProcessing st; isPreviewing := isPreviewing st;
         isPreviewReady := isPreviewReady st;
         exportProgress := exportProgress st; exportError := exportError st;
         exportedVideoUrl := exportedVideoUrl st |}
  | None => st
  end.

(** [if (!audioFile || !imageFile) return] *)
Definition filesMissing (st : State) : bool :=
  match audioFile st, imageFile st with
  | Some _, Some _ => false
  | _, _ => true
  end.

Definition handlePreview (st : State) : State :=
  if filesMissing st then st
  else
    {| audioFile := audioFile st; imageFile := imageFile st;
       isProcessing := isProcessing st; isPreviewing := true;
       isPreviewReady := isPreviewReady st;
       exportProgress := exportProgress st; exportError := exportError st;
       exportedVideoUrl := exportedVideoUrl st |}.

Definition handleExport (st : State) : State :=
  if filesMissing st then st
  else
    {| audioFile := audioFile st; imageFile := imageFile st;
       isProcessing := true; isPreviewing := isPreviewing st;
       isPreviewReady := isPreviewReady st;
       exportProgress := 0%Z; exportError := None;
       exportedVideoUrl := exportedVideoUrl st |}.

(** [disabled={!audioFile || !imageFile || isProcessing}] on both buttons *)
Definition buttonsDisabled (st : State) : bool :=
  filesMissing st || isProcessing st.

(** The props handed to [VideoExporter]. *)
Definition onProgress (progress : Z) (st : State) : State :=
  {| audioFile := audioFile st; imageFile := imageFile st;
     isProcessing := isProcessing st; isPreviewing := isPreviewing st;
     isPreviewReady := isPreviewReady st;
     exportProgress := progress; exportError := exportError st;
     exportedVideoUrl := exportedVideoUrl st |}.

Definition onComplete (url : ObjectURL) (st : State) : State :=
  {| audioFile := audioFile st; imageFile := imageFile st;
     isProcessing := false; isPreviewing := isPreviewing st;
     isPreviewReady := isPreviewReady st;
     exportProgress := exportProgress st; exportError := exportError st;
     exportedVideoUrl := Some url |}.

Definition onError (error : string) (st : State) : State :=
  {| audioFile := audioFile st; imageFile := imageFile st;
     isProcessing := false; isPreviewing := isPreviewing st;
     isPreviewReady := isPreviewReady st;
     exportProgress := exportProgress st; exportError := Some error;
     exportedVideoUrl := exportedVideoUrl st |}.

(** [onReady={() => setIsPreviewReady(true)}] *)
Definition onReady (st : State) : State :=
  {| audioFile := audioFile st; imageFile := imageFile st;
     isProcessing := isProcessing st; isPreviewing := isPreviewing st;
     isPreviewReady := true;
     exportProgress := exportProgress st; exportError := exportError st;
     exportedVideoUrl := exportedVideoUrl st |}.

(** What can happen to the page.  A click on a disabled button does not
    reach its handler. *)
Inductive Action :=
| DropAudio (acceptedFiles : list DroppedFile)
| DropImage (acceptedFiles : list DroppedFile)
| ClickPreview
| ClickExport
| PreviewReady
| ExporterProgress (progress : Z)
| ExporterComplete (url : ObjectURL)
| ExporterError (error : string).

Definition step (st : State) (a : Action) : State :=
  match a with
  | DropAudio files => onDropAudio files st
  | DropImage files => onDropImage files st
  | ClickPreview => if buttonsDisabled st then st else handlePreview st
  | ClickExport => if buttonsDisabled st then st else handleExport st
  | PreviewReady => onReady st
  | ExporterProgress p => onProgress p st
  | ExporterComplete url => onComplete url st
  | ExporterError e => onError e st
  end.

Definition steps (st : State) (actions : list Action) : State :=
  fold_left step actions st.

(** What the page renders. *)

(** [{isProcessing && (<VideoExporter ... />)}] *)
Definition exporterMounted (st : State) : bool := isProcessing st.

(** [{isProcessing && (... {exportError && (<p>{exportError}</p>)} ...)}] *)
Definition errorShown (st : State) : bool :=
  isProcessing st &&
  match exportError st with
  | Some error => negb (String.eqb error EmptyString)
  | None => false
  end.

(** [{exportedVideoUrl && !isProcessing && (<a href=... download>)}] *)
Definition downloadShown (st : State) : bool :=
  bool_decide (is_Some (exportedVideoUrl st)) && negb (isProcessing st).

End Home.

(** The callbacks of an exporter run, delivered to the page in order; the
    page sees nothing of the analyser and of ffmpeg. *)
Definition deliver (st : Home.State) (e : Event) : Home.State :=
  match e with
  | onProgress progress => Home.onProgress progress st
  | onComplete url => Home.onComplete url st
  | onError error => Home.onError error st
  | _ => st
  end.

Definition deliverAll (st : Home.State) (evs : list Event) : Home.State :=
  fold_left deliver evs st.

Definition isTerminal (e : Event) : bool :=
  match e with
  | onComplete _ | onError _ => true
  | _ => false
  end.

(** ** The upload server (Anime Video Generator/server.js) *)

Module Server.

(** A file as multer stores it. *)
Record UploadedFile := {
  path : string
}.

Inductive Response :=
| status400 (error : string)
| json200 (audioPath imagePath : string).

(** The handler of [POST /upload].  [files] is [req.files]: absent, or an
    object from field name to the array of the files of that field.  The
    result is the response sent, or [None] when the handler throws before
    it sends one ([req.files.audio[0].path] on a missing field or an empty
    array). *)
Definition upload (files : option (gmap string (list UploadedFile)))
    : option Response :=
  match files with
  | None => Some (status400 "No files uploaded")
  | Some fields =>
      match fields !! "audio"%string with
      | Some (audio :: _) =>
          match fields !! "image"%string with
          | Some (image :: _) => Some (json200 (path audio) (path image))
          | _ => None
          end
      | _ => None
      end
  end.

End Server.

(** ** Sample inputs for the processor, the page and the server *)

(** An encoder that leaves [output.mp4] beside its inputs, or rejects; the
    clean-up fulfils or rejects as asked. *)
Definition sampleEncoder (execFulfils cleanupOk : bool) : Processor.World :=
  {| Processor.fetchFileOk _ := true;
     Processor.writeFileOk _ := true;
     Processor.encode _ files :=
       if execFulfils then Some (<["output.mp4"%string := rawBytes []]> files)
       else None;
     Processor.deleteFileOk _ := cleanupOk |}.

Definition freshProcessor : Processor.St :=
  {| Processor.fs := ∅; Processor.videoUrl := None; Processor.errors := 0;
     Processor.execCalls := [] |}.

Definition sampleSong : Home.DroppedFile :=
  {| Home.fileName := "song.mp3"; Home.fileType := "audio/mpeg";
     Home.fileBytes := [] |}.

Definition sampleCover : Home.DroppedFile :=
  {| Home.fileName := "cover.png"; Home.fileType := "image/png";
     Home.fileBytes := [] |}.

(** The page with both files dropped and [Export Video] clicked. *)
Definition exportingPage : Home.State :=
  Home.steps Home.initial
    [Home.DropAudio [sampleSong]; Home.DropImage [sampleCover];
     Home.ClickExport].

(** What every reachable state of the page satisfies. *)
Definition pageInvariant (st : Home.State) : Prop :=
  (forall f, Home.audioFile st = Some f ->
     String.prefix "audio/" (Home.fileType f) = true)
  /\ (forall f, Home.imageFile st = Some f ->
        String.prefix "image/" (Home.fileType f) = true)
  /\ (Home.isProcessing st = true -> Home.filesMissing st = false)
  /\ (Home.isPreviewing st = true -> Home.filesMissing st = false)
  /\ (Home.isProcessing st = true -> Home.exportError st = None).

(** ** Colours a canvas can show *)

(** The ranges of the CSS colour functions: channels 0..255, hue 0..360,
    percentages 0..100, alpha 0..1. *)
Definition inGamut (c : Color) : Prop :=
  match c with
  | rgb r g b => (0 <= r <= 255) /\ (0 <= g <= 255) /\ (0 <= b <= 255)
  | hsl h s l => (0 <= h <= 360) /\ (0 <= s <= 100) /\ (0 <= l <= 100)
  | rgba r g b a =>
      (0 <= r <= 255) /\ (0 <= g <= 255) /\ (0 <= b <= 255) /\ (0 <= a <= 1)
  end.

(** * Properties *)

(** ** Numbers *)

Lemma Math_round_mono (x y : Q) : x <= y -> (JS.Math_round x <= JS.Math_round y)%Z.
Proof.
  intros Hxy. unfold JS.Math_round. apply Qfloor_resp_le. lra.
Qed.

Lemma Math_round_bounds (x : Q) (lo hi : Z) :
  inject_Z lo <= x -> x <= inject_Z hi -> (lo <= JS.Math_round x <= hi)%Z.
Proof.
  intros Hlo Hhi. unfold JS.Math_round. split.
  - rewrite <- (Qfloor_Z lo). apply Qfloor_resp_le. lra.
  - assert (H : (Qfloor (x + (1 # 2)) < hi + 1)%Z); [|lia].
    rewrite Zlt_Qlt. eapply Qle_lt_trans; [apply Qfloor_le|].
    rewrite inject_Z_plus. change (inject_Z 1) with 1. lra.
Qed.

Lemma inject_Z_minus (x y : Z) : inject_Z (x - y) == inject_Z x - inject_Z y.
Proof.
  unfold Z.sub. rewrite inject_Z_plus, inject_Z_opp. reflexivity.
Qed.

Lemma byteValue_range (v : Byte.byte) : 0 <= byteValue v <= 255.
Proof.
  unfold byteValue. pose proof (Byte.to_N_bounded v) as Hb.
  split.
  - change 0 with (inject_Z 0). rewrite <- Zle_Qle. lia.
  - change 255 with (inject_Z 255). rewrite <- Zle_Qle. lia.
Qed.

(** ** Bar geometry *)

Section Geometry.

Variable settings : VisualizerSettings.

Lemma totalBars_eq : Exporter.totalBars == 128.
Proof. reflexivity. Qed.

Lemma maxBarHeight_eq : Exporter.maxBarHeight == 216.
Proof. reflexivity. Qed.

(** The width is chosen so that 128 bars and 127 gaps fill 1280 pixels. *)
Lemma barWidth_fills_width :
  Exporter.totalBars * Exporter.barWidth settings
    + (Exporter.totalBars - 1) * barSpacing settings
  == Exporter.totalWidth.
Proof.
  unfold Exporter.barWidth, Exporter.totalSpacing, Exporter.totalWidth.
  rewrite totalBars_eq. field.
Qed.

(** A rectangular bar is drawn from [i * barWidth], one bar width wide:
    bar [i] ends where bar [i + 1] starts, whatever the spacing. *)
Lemma drawBar_rectangle (shadowOps : VisualizerSettings -> Color -> list CanvasOp)
    (i : nat) (v : Byte.byte) :
  shape settings = rectangle ->
  exists color y h,
    Exporter.drawBar shadowOps settings i v =
      shadowOps settings color ++
      [set_fillStyle color;
       fillRect (inject_Z (Z.of_nat i) * Exporter.barWidth settings) y
         (Exporter.barWidth settings) h].
Proof.
  intros Hshape. unfold Exporter.drawBar. rewrite Hshape. eauto.
Qed.

Lemma bar_right_edge (i : nat) :
  inject_Z (Z.of_nat i) * Exporter.barWidth settings + Exporter.barWidth settings
  == inject_Z (Z.of_nat (S i)) * Exporter.barWidth settings.
Proof.
  rewrite Nat2Z.inj_succ. unfold Z.succ. rewrite inject_Z_plus.
  change (inject_Z 1) with 1. ring.
Qed.

(** The last of the 128 bars ends [127 * barSpacing] pixels short of the
    right edge. *)
Lemma last_bar_right_edge :
  inject_Z (Z.of_nat 127) * Exporter.barWidth settings + Exporter.barWidth settings
  == Exporter.totalWidth - 127 * barSpacing settings.
Proof.
  rewrite bar_right_edge.
  pose proof barWidth_fills_width as H. rewrite totalBars_eq in H.
  change (inject_Z (Z.of_nat 128)) with 128. lra.
Qed.

(** The share of the maximum height a bar takes is
    [dataArray[i] * settings.barHeight / 255]. *)
Lemma bar_position (v : Byte.byte) :
  Exporter.barHeightPx settings v / Exporter.maxBarHeight
  == byteValue v * barHeight settings / 255.
Proof.
  unfold Exporter.barHeightPx. rewrite maxBarHeight_eq. field.
Qed.

End Geometry.

(** C5, evaluated on the code: with the page's default spacing of one pixel
    and rectangular bars, [barWidth] is 1153/128 and the last bar, bar 127,
    is filled from [127 * barWidth] over one [barWidth]; its right edge is
    at 1153, not at the 1280 of the buffer's width, so the row of bars does
    not span the width edge to edge. *)
Theorem C5_bar_row_stops_short :
  let settings :=
    {| barSpacing := 1; barHeight := 7 # 10; colorScheme := greenRed;
       position := bottom; shape := rectangle; glow := false |} in
  let barWidth := Exporter.barWidth settings in
  barWidth == 1153 # 128
  /\ 128 * barWidth + 127 * barSpacing settings == VideoExporter.canvasWidth
  /\ (exists color y h,
        Exporter.drawBar VideoExporter.shadowOps settings 127 Byte.xff =
          [set_fillStyle color;
           fillRect (inject_Z (Z.of_nat 127) * barWidth) y barWidth h])
  /\ inject_Z (Z.of_nat 127) * barWidth + barWidth == 1153
  /\ ~ inject_Z (Z.of_nat 127) * barWidth + barWidth == VideoExporter.canvasWidth.
Proof.
  cbv zeta. repeat split.
  - do 3 eexists. reflexivity.
  - intros H. discriminate H.
Qed.

(** C6, evaluated on the code: at resolution 1080p the canvas made by
    [setupCanvas] is 1080 pixels high, yet [captureFrames] takes
    [maxBarHeight] as [720 * 0.3 = 216], so a full-scale bin at height
    scale 1 is drawn 216 pixels high, not the 324 pixels that 30% of the
    buffer's height would give. *)
Theorem C6_maxBarHeight_ignores_resolution :
  let es := {| resolution := res1080p; fps := 30; format := mp4; quality := high |} in
  let settings :=
    {| barSpacing := 1; barHeight := 1; colorScheme := greenRed;
       position := bottom; shape := rectangle; glow := false |} in
  SettingsExporter.canvasHeight es == 1080
  /\ Exporter.maxBarHeight == 216
  /\ ~ Exporter.maxBarHeight == (3 # 10) * SettingsExporter.canvasHeight es
  /\ Exporter.barHeightPx settings Byte.xff == 216
  /\ ~ Exporter.barHeightPx settings Byte.xff
       == byteValue Byte.xff * barHeight settings
          * ((3 # 10) * SettingsExporter.canvasHeight es / 255).
Proof.
  cbv zeta. repeat split; intros H; discriminate H.
Qed.

(** ** Colours *)

(** C7 (amended): for every bar height [h] and maximum height [m > 0] the
    colour is computed from [p = h / m] as it is, without clamping; for the
    greenRed scheme it is [rgb(255 p, 255 (1 - p), 0)], which is
    [rgb(0, 255, 0)] at [h = 0] and [rgb(255, 0, 0)] at [h = m]; [p] is at
    most 1 exactly when [h <= m], and for the bars of a frame [p] is
    [dataArray[i] * settings.barHeight / 255]. *)
Theorem C7_greenRed_color_unclamped (settings : VisualizerSettings) (h m : Q) :
  colorScheme settings = greenRed ->
  0 < m ->
  Color_eq (getColorForScheme settings h m)
    (rgb (255 * (h / m)) (255 * (1 - h / m)) 0)
  /\ (h == 0 -> Color_eq (getColorForScheme settings h m) (rgb 0 255 0))
  /\ (h == m -> Color_eq (getColorForScheme settings h m) (rgb 255 0 0))
  /\ (h / m <= 1 <-> h <= m)
  /\ (forall v : Byte.byte,
        Exporter.barHeightPx settings v / Exporter.maxBarHeight
        == byteValue v * barHeight settings / 255).
Proof.
  intros Hscheme Hm.
  assert (Hm0 : ~ m == 0) by lra.
  unfold getColorForScheme. rewrite Hscheme. simpl.
  split; [|split; [|split; [|split]]].
  - repeat split; reflexivity.
  - intros Hh. rewrite Hh. repeat split; try reflexivity; field; exact Hm0.
  - intros Hh. rewrite Hh. repeat split; try reflexivity; field; exact Hm0.
  - split; intros H.
    + apply (Qmult_le_r _ _ m) in H; [|exact Hm].
      rewrite Qmult_1_l in H.
      assert (Hd : h / m * m == h) by (field; exact Hm0).
      rewrite Hd in H. exact H.
    + apply (Qmult_le_r _ _ m); [exact Hm|].
      rewrite Qmult_1_l.
      assert (Hd : h / m * m == h) by (field; exact Hm0).
      rewrite Hd. exact H.
  - intros v. apply bar_position.
Qed.

Lemma C7_greenRed_color_unclamped_witness :
  colorScheme defaultSettings = greenRed /\ 0 < 216
  /\ Color_eq (getColorForScheme defaultSettings 108 216)
       (rgb (255 * (108 / 216)) (255 * (1 - 108 / 216)) 0).
Proof.
  split; [reflexivity|]. split; [reflexivity|].
  apply (C7_greenRed_color_unclamped defaultSettings 108 216); reflexivity.
Defined.

(** C7 fails as stated: with the height slider at 2 a full-scale bin gives a
    bar of 432 pixels against a maximum of 216, the position is 2, and the
    greenRed colour is [rgb(510, -255, 0)] rather than the [rgb(255, 0, 0)]
    of a position clamped to 1. *)
Lemma C7_counterexample :
  let settings :=
    {| barSpacing := 1; barHeight := 2; colorScheme := greenRed;
       position := bottom; shape := rectangle; glow := false |} in
  let h := Exporter.barHeightPx settings Byte.xff in
  let m := Exporter.maxBarHeight in
  h == 432 /\ m == 216 /\ ~ h / m <= 1
  /\ Color_eq (getColorForScheme settings h m) (rgb 510 (-255) 0)
  /\ ~ Color_eq (getColorForScheme settings h m) (rgb 255 0 0).
Proof.
  cbv zeta. split; [reflexivity|]. split; [reflexivity|].
  split; [intros H; apply H; reflexivity|].
  split; [repeat split; reflexivity|].
  intros [H _]. discriminate H.
Qed.

(** ** The capture loop and the run, step by step *)

Section RunFacts.

Context {an : AnalyserNode}.
Variables canvasWidth canvasHeight : Q.
Variable shadowOps : VisualizerSettings -> Color -> list CanvasOp.
Variable encoderArgs : list string.
Variables outputFile mimeType : string.
Variables audioFile imageFile : list Byte.byte.
Variable settings : VisualizerSettings.
Variable w : World.

Local Abbreviation captureFrame :=
  (Exporter.captureFrame (an:=an) canvasWidth canvasHeight shadowOps settings w).
Local Abbreviation captureFrames :=
  (Exporter.captureFrames (an:=an) canvasWidth canvasHeight shadowOps settings w).
Local Abbreviation run :=
  (Exporter.run (an:=an) canvasWidth canvasHeight shadowOps encoderArgs
     outputFile mimeType audioFile imageFile settings w).
Local Abbreviation stateAt :=
  (Trace.stateAt (an:=an) canvasWidth canvasHeight shadowOps settings w).
Local Abbreviation stateFailedAt :=
  (Trace.stateFailedAt (an:=an) canvasWidth canvasHeight shadowOps settings w).
Local Abbreviation frameEvents :=
  (Trace.frameEvents (an:=an) canvasWidth canvasHeight shadowOps settings w).
Local Abbreviation frameAttempt :=
  (Trace.frameAttempt (an:=an) canvasWidth canvasHeight shadowOps settings w).
Local Abbreviation captureTrace :=
  (Trace.captureTrace (an:=an) canvasWidth canvasHeight shadowOps settings w).
Local Abbreviation encodeTrace :=
  (Trace.encodeTrace (an:=an) canvasWidth canvasHeight shadowOps encoderArgs
     outputFile mimeType settings w).
Local Abbreviation exportTrace :=
  (Trace.exportTrace (an:=an) canvasWidth canvasHeight shadowOps encoderArgs
     outputFile mimeType settings w).

(** One iteration whose [writeFile] fulfils. *)
Lemma captureFrame_fulfilled (b : AudioBuffer) (frame : nat) :
  writeFileOk w frame = true ->
  captureFrame b frame (stateAt b frame)
  = (frameEvents b frame, stateAt b (S frame), Fulfilled tt).
Proof.
  intros Hok.
  unfold Exporter.captureFrame, mbind, Async_bind, bind,
    Exporter.readAnalyser, Exporter.paint, Exporter.toDataURL,
    Exporter.writeFile, Exporter.nextFrameTime, emit.
  unfold Trace.stateAt, Trace.frameEvents, Trace.frameAttempt,
    Trace.renderProgress, Trace.imageAt.
  cbn [Trace.fsAt Trace.canvasAt Trace.playbackAt Trace.analyserAt
       fs canvas playback analyser].
  unfold Trace.imageAt, Trace.spectrumAt.
  cbn [Trace.canvasAt]. unfold Trace.spectrumAt.
  destruct (getByteFrequencyData an _ b _) as [written a'] eqn:Hread.
  rewrite Hok. reflexivity.
Qed.

(** One iteration whose [writeFile] rejects. *)
Lemma captureFrame_rejected (b : AudioBuffer) (frame : nat) :
  writeFileOk w frame = false ->
  captureFrame b frame (stateAt b frame)
  = (frameAttempt b frame, stateFailedAt b frame, Rejected).
Proof.
  intros Hok.
  unfold Exporter.captureFrame, mbind, Async_bind, bind,
    Exporter.readAnalyser, Exporter.paint, Exporter.toDataURL,
    Exporter.writeFile, Exporter.nextFrameTime, emit.
  unfold Trace.stateAt, Trace.stateFailedAt, Trace.frameAttempt,
    Trace.imageAt.
  cbn [Trace.fsAt Trace.canvasAt Trace.playbackAt Trace.analyserAt
       fs canvas playback analyser].
  unfold Trace.spectrumAt.
  destruct (getByteFrequencyData an _ b _) as [written a'] eqn:Hread.
  rewrite Hok. reflexivity.
Qed.

(** The loop, entered at [frame] with [count] iterations to go. *)
Lemma forFrames_captureFrame (b : AudioBuffer) (count frame : nat) :
  forFrames (captureFrame b) count frame (stateAt b frame)
  = let k := framesWritten w count frame in
    if decide (k < count)%nat
    then (flat_map (frameEvents b) (seq frame k) ++ frameAttempt b (frame + k),
          stateFailedAt b (frame + k), Rejected)
    else (flat_map (frameEvents b) (seq frame k),
          stateAt b (frame + k), Fulfilled tt).
Proof.
  revert frame. induction count as [|count IH]; intros frame.
  - simpl. rewrite Nat.add_0_r. reflexivity.
  - cbn [forFrames framesWritten].
    unfold mbind, Async_bind, bind.
    destruct (writeFileOk w frame) eqn:Hok.
    + rewrite (captureFrame_fulfilled b frame Hok), IH. cbv zeta.
      replace (frame + S (framesWritten w count (S frame)))%nat
        with (S frame + framesWritten w count (S frame))%nat by lia.
      destruct (decide (framesWritten w count (S frame) < count)%nat);
        destruct (decide (S (framesWritten w count (S frame)) < S count)%nat);
        try lia; cbn [seq flat_map]; rewrite <- ?app_assoc; reflexivity.
    + rewrite (captureFrame_rejected b frame Hok). cbv zeta.
      destruct (decide (0 < S count)%nat); [|lia].
      rewrite Nat.add_0_r. reflexivity.
Qed.

Lemma framesWritten_le (count frame : nat) :
  (framesWritten w count frame <= count)%nat.
Proof.
  revert frame. induction count as [|count IH]; intros frame; simpl.
  - lia.
  - destruct (writeFileOk w frame); [specialize (IH (S frame))|]; lia.
Qed.

(** [captureFrames], called as [exportVideo] calls it. *)
Lemma captureFrames_mounted (b : AudioBuffer) :
  let count := Z.to_nat (Exporter.totalFrames b) in
  let k := framesWritten w count 0 in
  captureFrames b Exporter.mounted
  = (captureTrace b count,
     if decide (k < count)%nat then stateFailedAt b k else stateAt b count,
     if decide (k < count)%nat then Rejected else Fulfilled tt).
Proof.
  cbv zeta. unfold Exporter.captureFrames, mbind, Async_bind, bind.
  unfold Exporter.startSource, Exporter.mounted. cbn [fs canvas].
  change {| fs := ∅; canvas := []; playback := 0;
            analyser := createAnalyser an |} with (stateAt b 0).
  rewrite forFrames_captureFrame. cbv zeta.
  unfold Trace.captureTrace. cbv zeta.
  pose proof (framesWritten_le (Z.to_nat (Exporter.totalFrames b)) 0) as Hle.
  destruct (decide _) as [Hlt|Hge]; cbn [app Nat.add]; [reflexivity|].
  rewrite app_nil_r.
  replace (framesWritten w (Z.to_nat (Exporter.totalFrames b)) 0)
    with (Z.to_nat (Exporter.totalFrames b)) by lia.
  reflexivity.
Qed.

(** The whole run, case by case. *)
Lemma run_events :
  events run =
    if ffmpegLoads w then
      if imageLoads w imageFile then
        match decodeAudioData w audioFile with
        | Some b => exportTrace b
        | None =>
            [onProgress 0; onProgress 10; onError "Failed to export video"]
        end
      else [onProgress 0]
    else [onError "Failed to load FFmpeg"].
Proof.
  unfold Exporter.run, Exporter.load, Exporter.ffmpegLoad, tryCatch.
  destruct (ffmpegLoads w); [|reflexivity].
  unfold mbind, Async_bind, bind, mret, Async_ret, ret.
  unfold Exporter.exportVideo, tryCatch, mbind, Async_bind, bind, emit,
    Exporter.setupCanvas, Exporter.decodeAudio.
  cbn [fs canvas playback analyser Exporter.mounted].
  destruct (imageLoads w imageFile); [|reflexivity].
  destruct (decodeAudioData w audioFile) as [b|]; [|reflexivity].
  unfold mret, Async_ret, ret.
  change {| fs := ∅; canvas := []; playback := 0;
            analyser := createAnalyser an |} with (Exporter.mounted (an:=an)).
  rewrite (captureFrames_mounted b). cbv zeta.
  unfold Trace.exportTrace. cbv zeta.
  destruct (decide _) as [Hlt|Hge]; [reflexivity|].
  unfold Exporter.exec, Exporter.readFile, Trace.encodeTrace.
  cbn [fs Trace.stateAt].
  destruct (execOk w); [destruct (readOutput w)|];
    unfold events; simpl; rewrite ?app_nil_r, <- ?app_assoc; reflexivity.
Qed.

(** How the run ends: pending when the image never loads, fulfilled
    otherwise. *)
Lemma run_outcome :
  outcome run =
    if ffmpegLoads w then
      if imageLoads w imageFile then Fulfilled tt else Pending
    else Fulfilled tt.
Proof.
  unfold Exporter.run, Exporter.load, Exporter.ffmpegLoad, tryCatch.
  destruct (ffmpegLoads w); [|reflexivity].
  unfold mbind, Async_bind, bind, mret, Async_ret, ret.
  unfold Exporter.exportVideo, tryCatch, mbind, Async_bind, bind, emit,
    Exporter.setupCanvas, Exporter.decodeAudio.
  cbn [fs canvas playback analyser Exporter.mounted].
  destruct (imageLoads w imageFile); [|reflexivity].
  destruct (decodeAudioData w audioFile) as [b|]; [|reflexivity].
  unfold mret, Async_ret, ret.
  change {| fs := ∅; canvas := []; playback := 0;
            analyser := createAnalyser an |} with (Exporter.mounted (an:=an)).
  rewrite (captureFrames_mounted b). cbv zeta.
  destruct (decide _) as [Hlt|Hge]; [reflexivity|].
  unfold Exporter.exec, Exporter.readFile.
  destruct (execOk w); [|reflexivity].
  destruct (readOutput w); reflexivity.
Qed.

End RunFacts.

(** ** Frame keys *)

Lemma append_cons (c : ascii) (s1 s2 : string) :
  (String c s1 ++ s2)%string = String c (s1 ++ s2)%string.
Proof. reflexivity. Qed.

Lemma append_empty (s : string) : ("" ++ s)%string = s.
Proof. reflexivity. Qed.

Lemma repeat_zero_digits (k : nat) (d : uint) :
  (JS.repeat_char "0" k ++ NilEmpty.string_of_uint d)%string
  = NilEmpty.string_of_uint (Nat.iter k D0 d).
Proof.
  induction k as [|k IH]; [reflexivity|].
  cbn [JS.repeat_char]. rewrite append_cons, IH. reflexivity.
Qed.

Lemma of_uint_leading_zeros (k : nat) (d : uint) :
  Nat.of_uint (Nat.iter k D0 d) = Nat.of_uint d.
Proof.
  induction k as [|k IH]; simpl; [reflexivity|]. exact IH.
Qed.

Lemma stripSuffix_digits (d : uint) :
  stripSuffix ".jpg" (NilEmpty.string_of_uint d ++ ".jpg")
  = Some (NilEmpty.string_of_uint d).
Proof.
  induction d; cbn [NilEmpty.string_of_uint];
    rewrite ?append_cons, ?append_empty; try reflexivity;
    cbn [stripSuffix String.eqb Ascii.eqb Bool.eqb]; rewrite IHd; reflexivity.
Qed.

(** The padded key of a frame is the decimal print of the frame index with
    leading zeros. *)
Lemma frameKey_digits (frame : nat) :
  exists d : uint,
    frameKey frame
    = ("frame" ++ NilEmpty.string_of_uint d ++ ".jpg")%string
    /\ Nat.of_uint d = frame.
Proof.
  unfold frameKey, JS.padStart, JS.toString.
  eexists. rewrite repeat_zero_digits. split; [reflexivity|].
  rewrite of_uint_leading_zeros. apply Unsigned.of_to.
Qed.

(** The key names its frame: the index printed in [frameKey frame] is
    [frame]. *)
Lemma frameIndexOfKey_frameKey (frame : nat) :
  frameIndexOfKey (frameKey frame) = Some frame.
Proof.
  destruct (frameKey_digits frame) as (d & -> & Hd).
  rewrite !append_cons, append_empty. cbn [frameIndexOfKey].
  rewrite stripSuffix_digits. cbn [mbind option_bind].
  rewrite NilEmpty.usu. cbn [fmap option_fmap option_map]. congruence.
Qed.

Lemma frameKey_inj (i j : nat) : frameKey i = frameKey j -> i = j.
Proof.
  intros H. apply (f_equal frameIndexOfKey) in H.
  rewrite !frameIndexOfKey_frameKey in H. congruence.
Qed.

Lemma frameKey_not_audio (i : nat) : frameKey i <> "input.mp3"%string.
Proof.
  intros H. apply (f_equal frameIndexOfKey) in H.
  rewrite frameIndexOfKey_frameKey in H. discriminate H.
Qed.


(** ** The closed-form trace, projected *)

Section TraceFacts.

Context {an : AnalyserNode}.
Variables canvasWidth canvasHeight : Q.
Variable shadowOps : VisualizerSettings -> Color -> list CanvasOp.
Variable encoderArgs : list string.
Variables outputFile mimeType : string.
Variable settings : VisualizerSettings.
Variable w : World.
Variable b : AudioBuffer.

Local Abbreviation frameEvents :=
  (Trace.frameEvents (an:=an) canvasWidth canvasHeight shadowOps settings w b).
Local Abbreviation frameAttempt :=
  (Trace.frameAttempt (an:=an) canvasWidth canvasHeight shadowOps settings w b).
Local Abbreviation captureTrace :=
  (Trace.captureTrace (an:=an) canvasWidth canvasHeight shadowOps settings w b).
Local Abbreviation encodeTrace :=
  (Trace.encodeTrace (an:=an) canvasWidth canvasHeight shadowOps encoderArgs
     outputFile mimeType settings w b).
Local Abbreviation exportTrace :=
  (Trace.exportTrace (an:=an) canvasWidth canvasHeight shadowOps encoderArgs
     outputFile mimeType settings w b).
Local Abbreviation fsAt :=
  (Trace.fsAt (an:=an) canvasWidth canvasHeight shadowOps settings w b).
Local Abbreviation imageAt :=
  (Trace.imageAt (an:=an) canvasWidth canvasHeight shadowOps settings w b).

Lemma writtenKeys_frames (l : list nat) :
  writtenKeys (flat_map frameEvents l) = map frameKey l.
Proof.
  unfold writtenKeys.
  induction l as [|i l IH]; [reflexivity|].
  cbn [flat_map map]. rewrite omap_app, IH. reflexivity.
Qed.


Lemma analyserReads_frames (l : list nat) :
  analyserReads (flat_map frameEvents l)
  = map (fun i => (Trace.playbackAt w i, Trace.spectrumAt (an:=an) w b i)) l.
Proof.
  unfold analyserReads.
  induction l as [|i l IH]; [reflexivity|].
  cbn [flat_map map]. rewrite omap_app, IH. reflexivity.
Qed.

Lemma frames_capture_events (l : list nat) :
  Forall isCaptureEvent (flat_map frameEvents l).
Proof.
  induction l as [|i l IH]; [constructor|].
  cbn [flat_map]. apply Forall_app_2; [|exact IH].
  repeat constructor.
Qed.

Lemma captureTrace_capture_events (count : nat) :
  Forall isCaptureEvent (captureTrace count).
Proof.
  unfold Trace.captureTrace. cbv zeta.
  apply Forall_app_2; [apply frames_capture_events|].
  destruct (decide _); repeat constructor.
Qed.

(** The file system after [frame] frames holds exactly their keys. *)
Lemma fsAt_lookup (frame : nat) (path : string) (data : File) :
  fsAt frame !! path = Some data ->
  exists i, (i < frame)%nat /\ path = frameKey i
            /\ data = base64Jpeg (imageAt i).
Proof.
  induction frame as [|frame IH]; cbn [Trace.fsAt].
  - rewrite lookup_empty. discriminate.
  - destruct (decide (frameKey frame = path)) as [<-|Hne].
    + rewrite lookup_insert_eq. intros [= <-]. exists frame. auto.
    + rewrite lookup_insert_ne by exact Hne. intros H.
      destruct (IH H) as (i & Hi & Hp & Hd). exists i. auto.
Qed.

Lemma fsAt_lookup_frame (frame i : nat) :
  (i < frame)%nat ->
  fsAt frame !! frameKey i = Some (base64Jpeg (imageAt i)).
Proof.
  induction frame as [|frame IH]; [lia|]. intros Hi. cbn [Trace.fsAt].
  destruct (decide (i = frame)) as [->|Hne].
  - apply lookup_insert_eq.
  - rewrite lookup_insert_ne; [apply IH; lia|].
    intros H. apply frameKey_inj in H. congruence.
Qed.

Lemma fsAt_no_audio (frame : nat) : fsAt frame !! "input.mp3"%string = None.
Proof.
  destruct (fsAt frame !! "input.mp3"%string) as [data|] eqn:H; [|reflexivity].
  apply fsAt_lookup in H as (i & _ & Hp & _).
  symmetry in Hp. apply frameKey_not_audio in Hp. contradiction.
Qed.

(** The encoder is started only after every frame was written. *)
Lemma exec_in_exportTrace (args : list string) (fs' : gmap string File) :
  let count := Z.to_nat (Exporter.totalFrames b) in
  In (ffmpeg_exec args fs') exportTrace ->
  framesWritten w count 0 = count
  /\ args = encoderArgs /\ fs' = fsAt count
  /\ exportTrace
     = [onProgress 0; onProgress 10; onProgress 20]
       ++ flat_map frameEvents (seq 0 count)
       ++ encodeTrace count.
Proof.
  cbv zeta. unfold Trace.exportTrace. cbv zeta.
  set (count := Z.to_nat (Exporter.totalFrames b)).
  pose proof (captureTrace_capture_events count) as Hcap.
  rewrite Forall_forall in Hcap.
  pose proof (framesWritten_le w count 0) as Hle.
  intros Hin.
  destruct Hin as [Hin|[Hin|[Hin|Hin]]]; try discriminate Hin.
  apply in_app_or in Hin as [Hin|Hin].
  { apply list_elem_of_In, Hcap in Hin. contradiction. }
  destruct (decide _) as [Hlt|Hge].
  { destruct Hin as [Hin|[]]. discriminate Hin. }
  assert (Hk : framesWritten w count 0 = count) by lia.
  assert (Hexec : args = encoderArgs /\ fs' = fsAt count).
  { unfold Trace.encodeTrace in Hin. destruct Hin as [Hin|Hin].
    - injection Hin as <- <-. auto.
    - destruct (execOk w); [destruct (readOutput w)|];
        repeat (destruct Hin as [Hin|Hin]; try discriminate Hin);
        contradiction. }
  destruct Hexec as [-> ->]. repeat split; [exact Hk|].
  unfold Trace.captureTrace. cbv zeta. fold count. rewrite Hk.
  destruct (decide (count < count)%nat); [lia|].
  rewrite app_nil_r. reflexivity.
Qed.

(** *** Progress *)


Lemma frame_share (frame : nat) :
  (frame < Z.to_nat (Exporter.totalFrames b))%nat ->
  0 <= inject_Z (Z.of_nat frame) / inject_Z (Exporter.totalFrames b) <= 1.
Proof.
  intros Hlt.
  assert (Ht : 0 < inject_Z (Exporter.totalFrames b)).
  { change 0 with (inject_Z 0). rewrite <- Zlt_Qlt. lia. }
  split.
  - apply Qle_shift_div_l; [exact Ht|]. rewrite Qmult_0_l.
    change 0 with (inject_Z 0). rewrite <- Zle_Qle. lia.
  - apply Qle_shift_div_r; [exact Ht|]. rewrite Qmult_1_l.
    rewrite <- Zle_Qle. lia.
Qed.

Lemma renderProgress_range (frame : nat) :
  (frame < Z.to_nat (Exporter.totalFrames b))%nat ->
  (20 <= Trace.renderProgress b frame <= 90)%Z.
Proof.
  intros Hlt. pose proof (frame_share frame Hlt) as [Hlo Hhi].
  unfold Trace.renderProgress.
  set (share := inject_Z (Z.of_nat frame) / inject_Z (Exporter.totalFrames b)) in *.
  pose proof (Math_round_bounds (share * 70) 0 70) as H.
  change (inject_Z 0) with 0 in H. change (inject_Z 70) with 70 in H.
  assert (H0 : 0 <= share * 70) by lra.
  assert (H70 : share * 70 <= 70) by lra.
  specialize (H H0 H70). lia.
Qed.



End TraceFacts.

(** ** Runs *)

Section RunTheorems.

Context {an : AnalyserNode}.
Variables canvasWidth canvasHeight : Q.
Variable shadowOps : VisualizerSettings -> Color -> list CanvasOp.
Variable encoderArgs : list string.
Variables outputFile mimeType : string.
Variables audioFile imageFile : list Byte.byte.
Variable settings : VisualizerSettings.
Variable w : World.

Local Abbreviation run :=
  (Exporter.run (an:=an) canvasWidth canvasHeight shadowOps encoderArgs
     outputFile mimeType audioFile imageFile settings w).
Local Abbreviation frameEvents :=
  (Trace.frameEvents (an:=an) canvasWidth canvasHeight shadowOps settings w).
Local Abbreviation encodeTrace :=
  (Trace.encodeTrace (an:=an) canvasWidth canvasHeight shadowOps encoderArgs
     outputFile mimeType settings w).
Local Abbreviation exportTrace :=
  (Trace.exportTrace (an:=an) canvasWidth canvasHeight shadowOps encoderArgs
     outputFile mimeType settings w).
Local Abbreviation fsAt :=
  (Trace.fsAt (an:=an) canvasWidth canvasHeight shadowOps settings w).

(** A run that starts the encoder loaded ffmpeg and the image, decoded
    the audio and wrote every frame first. *)
Lemma run_reaches_encoding (args : list string) (fs' : gmap string File) :
  In (ffmpeg_exec args fs') (events run) ->
  exists b,
    let count := Z.to_nat (Exporter.totalFrames b) in
    decodeAudioData w audioFile = Some b
    /\ framesWritten w count 0 = count
    /\ args = encoderArgs /\ fs' = fsAt b count
    /\ events run
       = [onProgress 0; onProgress 10; onProgress 20]
         ++ flat_map (frameEvents b) (seq 0 count)
         ++ encodeTrace b count.
Proof.
  rewrite run_events.
  destruct (ffmpegLoads w).
  2:{ intros [H|[]]. discriminate H. }
  destruct (imageLoads w imageFile).
  2:{ intros [H|[]]. discriminate H. }
  destruct (decodeAudioData w audioFile) as [b|].
  2:{ intros [H|[H|[H|[]]]]; discriminate H. }
  intros Hin. exists b. cbv zeta.
  apply exec_in_exportTrace in Hin as (Hk & Hargs & Hfs & Htrace).
  auto.
Qed.







(** No completion without the encoder's output, and never both
    callbacks. *)
Lemma run_completes_after_read (url : ObjectURL) :
  In (onComplete url) (events run) ->
  exists b data,
    decodeAudioData w audioFile = Some b
    /\ readOutput w = Some data
    /\ execOk w = true
    /\ url = {| blobType := mimeType; blobData := data |}
    /\ forall msg, ~ In (onError msg) (events run).
Proof.
  rewrite run_events.
  destruct (ffmpegLoads w).
  2:{ intros [H|[]]. discriminate H. }
  destruct (imageLoads w imageFile).
  2:{ intros [H|[]]. discriminate H. }
  destruct (decodeAudioData w audioFile) as [b|].
  2:{ intros [H|[H|[H|[]]]]; discriminate H. }
  unfold Trace.exportTrace. cbv zeta.
  set (count := Z.to_nat (Exporter.totalFrames b)).
  pose proof (captureTrace_capture_events (an:=an) canvasWidth canvasHeight
                shadowOps settings w b count) as Hcap.
  rewrite Forall_forall in Hcap.
  assert (Hnot : forall e, ~ isCaptureEvent e ->
    ~ In e (Trace.captureTrace (an:=an) canvasWidth canvasHeight shadowOps
              settings w b count)).
  { intros e He Hin. apply He, Hcap, list_elem_of_In, Hin. }
  intros Hin.
  destruct Hin as [Hin|[Hin|[Hin|Hin]]]; try discriminate Hin.
  apply in_app_or in Hin as [Hin|Hin]; [apply Hnot in Hin; [contradiction|auto]|].
  destruct (decide _) as [Hlt|Hge].
  { destruct Hin as [Hin|[]]. discriminate Hin. }
  unfold Trace.encodeTrace in *.
  destruct (execOk w).
  2:{ repeat (destruct Hin as [Hin|Hin]; try discriminate Hin). contradiction. }
  destruct (readOutput w) as [data|].
  2:{ repeat (destruct Hin as [Hin|Hin]; try discriminate Hin). contradiction. }
  exists b, data. repeat split.
  - repeat (destruct Hin as [Hin|Hin]; try discriminate Hin);
      [congruence|contradiction].
  - intros msg Herr.
    destruct Herr as [Herr|[Herr|[Herr|Herr]]]; try discriminate Herr.
    apply in_app_or in Herr as [Herr|Herr];
      [apply Hnot in Herr; [contradiction|auto]|].
    repeat (destruct Herr as [Herr|Herr]; try discriminate Herr).
    contradiction.
Qed.

(** Unless the image never loads, the run ends by invoking one of the two
    callbacks. *)
Lemma run_reports_outcome :
  ffmpegLoads w = false \/ imageLoads w imageFile = true ->
  outcome run = Fulfilled tt
  /\ ((exists url, In (onComplete url) (events run))
      \/ (exists msg, In (onError msg) (events run))).
Proof.
  intros Hcase. rewrite run_outcome, run_events.
  destruct (ffmpegLoads w).
  2:{ split; [reflexivity|]. right. eexists. left. reflexivity. }
  destruct Hcase as [Hcase|Himg]; [discriminate Hcase|]. rewrite Himg.
  split; [reflexivity|].
  destruct (decodeAudioData w audioFile) as [b|].
  2:{ right. eexists. do 2 right. left. reflexivity. }
  unfold Trace.exportTrace. cbv zeta.
  destruct (decide _) as [Hlt|Hge].
  { right. eexists. do 3 right. apply in_or_app. right. left. reflexivity. }
  unfold Trace.encodeTrace.
  destruct (execOk w).
  2:{ right. eexists. do 3 right. apply in_or_app. right. right. left.
      reflexivity. }
  destruct (readOutput w) as [data|].
  - left. eexists. do 3 right. apply in_or_app. right. do 4 right. left.
    reflexivity.
  - right. eexists. do 3 right. apply in_or_app. right. do 3 right. left.
    reflexivity.
Qed.

End RunTheorems.

(** ** The exporter with visualiser settings: claims on runs *)

Lemma framesWritten_all (w : World) (count frame : nat) :
  (forall i, writeFileOk w i = true) -> framesWritten w count frame = count.
Proof.
  intros Hok. revert frame.
  induction count as [|count IH]; intros frame; cbn [framesWritten];
    [reflexivity|].
  rewrite Hok, IH. reflexivity.
Qed.



Section EncodingRuns.

Context {an : AnalyserNode}.
Variables canvasWidth canvasHeight : Q.
Variable shadowOps : VisualizerSettings -> Color -> list CanvasOp.
Variable encoderArgs : list string.
Variables outputFile mimeType : string.
Variable settings : VisualizerSettings.
Variable w : World.
Variable b : AudioBuffer.

Local Abbreviation frameEvents :=
  (Trace.frameEvents (an:=an) canvasWidth canvasHeight shadowOps settings w b).
Local Abbreviation encodeTrace :=
  (Trace.encodeTrace (an:=an) canvasWidth canvasHeight shadowOps encoderArgs
     outputFile mimeType settings w b).

Lemma writtenKeys_encodeTrace (count : nat) :
  writtenKeys (encodeTrace count) = [].
Proof.
  unfold Trace.encodeTrace.
  destruct (execOk w); [destruct (readOutput w)|]; reflexivity.
Qed.

(** Only frames are ever written: every [writeFile] of the trace carries
    the base64 payload of a canvas snapshot. *)
Lemma written_files_are_frames (count : nat) (path : string) (data : File) :
  In (ffmpeg_writeFile path data)
     ([onProgress 0; onProgress 10; onProgress 20]
      ++ flat_map frameEvents (seq 0 count) ++ encodeTrace count) ->
  exists i f, path = frameKey i /\ data = base64Jpeg f.
Proof.
  intros Hin. apply in_app_or in Hin as [Hin|Hin].
  { repeat (destruct Hin as [Hin|Hin]; try discriminate Hin). contradiction. }
  apply in_app_or in Hin as [Hin|Hin].
  - apply in_flat_map in Hin as (i & _ & Hin).
    repeat (destruct Hin as [Hin|Hin]; try discriminate Hin);
      [|contradiction].
    injection Hin as <- <-. eauto.
  - unfold Trace.encodeTrace in Hin.
    destruct (execOk w); [destruct (readOutput w)|];
      repeat (destruct Hin as [Hin|Hin]; try discriminate Hin);
      contradiction.
Qed.

End EncodingRuns.


Lemma sample_run_encodes :
  In (ffmpeg_exec VideoExporter.encoderArgs
        (Trace.fsAt (an:=sampleCounter) VideoExporter.canvasWidth
           VideoExporter.canvasHeight VideoExporter.shadowOps defaultSettings
           (smoothWorld (clip (1 # 10)) 0) (clip (1 # 10)) 3))
     (events (VideoExporter.run (an:=sampleCounter) sampleProps
                (smoothWorld (clip (1 # 10)) 0))).
Proof.
  unfold VideoExporter.run. rewrite run_events. cbn [ffmpegLoads imageLoads
    decodeAudioData smoothWorld].
  unfold Trace.exportTrace. cbv zeta.
  change (Z.to_nat (Exporter.totalFrames (clip (1 # 10)))) with 3%nat.
  rewrite (framesWritten_all _ 3 0) by reflexivity.
  destruct (decide (3 < 3)%nat); [lia|].
  do 3 right. apply in_or_app. right. left. reflexivity.
Qed.


(** C2, evaluated on the code: in every run that gets to the encoder,
    [ffmpeg.exec] names [input.mp3] as its audio input, but no file of that
    name is in the file system it runs over: every file there is a frame
    under a frame key, and no [writeFile] of the run ever carries raw
    bytes such as the audio asset's. *)
Theorem C2_encoder_audio_input_missing {an : AnalyserNode}
    (props : VideoExporter.Props) (w : World)
    (args : list string) (fs' : gmap string File) :
  In (ffmpeg_exec args fs') (events (VideoExporter.run (an:=an) props w)) ->
  In "input.mp3"%string args
  /\ fs' !! "input.mp3"%string = None
  /\ (forall path data, fs' !! path = Some data ->
        exists i f, path = frameKey i /\ data = base64Jpeg f)
  /\ (forall path content,
        ~ In (ffmpeg_writeFile path (rawBytes content))
             (events (VideoExporter.run (an:=an) props w))).
Proof.
  intros Hin. unfold VideoExporter.run in *.
  apply run_reaches_encoding in Hin as (b & Hdec & Hk & -> & -> & Hev).
  split; [cbv; tauto|].
  split; [apply fsAt_no_audio|].
  split.
  - intros path data Hlook. apply fsAt_lookup in Hlook as (i & _ & -> & ->).
    eauto.
  - intros path content Hw. rewrite Hev in Hw.
    apply written_files_are_frames in Hw as (i & f & _ & Hf). discriminate Hf.
Qed.

Lemma C2_encoder_audio_input_missing_witness :
  Trace.fsAt (an:=sampleCounter) VideoExporter.canvasWidth
    VideoExporter.canvasHeight VideoExporter.shadowOps defaultSettings
    (smoothWorld (clip (1 # 10)) 0) (clip (1 # 10)) 3
  !! "input.mp3"%string = None.
Proof.
  apply (C2_encoder_audio_input_missing (an:=sampleCounter) sampleProps
           (smoothWorld (clip (1 # 10)) 0) _ _ sample_run_encodes).
Defined.

(** C9, evaluated on the code: when the image fails to load, the promise
    made in [setupCanvas] is never settled (only [img.onload] is wired), so
    the run reports progress 0 and then stays pending for ever: neither
    the error callback nor the completion callback is invoked. *)
Theorem C9_failed_image_load_is_silent {an : AnalyserNode}
    (props : VideoExporter.Props) (w : World) :
  ffmpegLoads w = true ->
  imageLoads w (VideoExporter.imageFile props) = false ->
  events (VideoExporter.run (an:=an) props w) = [onProgress 0]
  /\ outcome (VideoExporter.run (an:=an) props w) = Pending
  /\ (forall msg, ~ In (onError msg) (events (VideoExporter.run (an:=an) props w)))
  /\ (forall url, ~ In (onComplete url) (events (VideoExporter.run (an:=an) props w))).
Proof.
  intros Hload Himg. unfold VideoExporter.run.
  rewrite run_events, run_outcome, Hload, Himg.
  repeat split; intros x [H|[]]; discriminate H.
Qed.

Lemma C9_failed_image_load_is_silent_witness :
  events (VideoExporter.run (an:=sampleCounter) sampleProps
            {| ffmpegLoads := true;
               imageLoads _ := false;
               decodeAudioData _ := Some (clip 1);
               frameCost _ := 0;
               writeFileOk _ := true;
               execOk := true;
               readOutput := Some [] |})
  = [onProgress 0].
Proof.
  apply (C9_failed_image_load_is_silent (an:=sampleCounter) sampleProps);
    reflexivity.
Defined.

(** ** The settings-aware exporter: frame rate *)

Section SmoothRuns.

Context {an : AnalyserNode}.
Variables canvasWidth canvasHeight : Q.
Variable shadowOps : VisualizerSettings -> Color -> list CanvasOp.
Variable encoderArgs : list string.
Variables outputFile mimeType : string.
Variables audioFile imageFile : list Byte.byte.
Variable settings : VisualizerSettings.
Variable w : World.

Local Abbreviation run :=
  (Exporter.run (an:=an) canvasWidth canvasHeight shadowOps encoderArgs
     outputFile mimeType audioFile imageFile settings w).

(** When nothing fails before it, the encoder is started. *)
Lemma run_encodes (b : AudioBuffer) :
  ffmpegLoads w = true ->
  imageLoads w imageFile = true ->
  decodeAudioData w audioFile = Some b ->
  (forall i, writeFileOk w i = true) ->
  In (ffmpeg_exec encoderArgs
        (Trace.fsAt (an:=an) canvasWidth canvasHeight shadowOps settings w b
           (Z.to_nat (Exporter.totalFrames b))))
     (events run).
Proof.
  intros Hload Himg Hdec Hok.
  rewrite run_events, Hload, Himg, Hdec.
  unfold Trace.exportTrace. cbv zeta.
  rewrite (framesWritten_all w _ 0 Hok).
  destruct (decide _) as [Hlt|_]; [lia|].
  do 3 right. apply in_or_app. right. left. reflexivity.
Qed.

(** The paths written by a run that gets to the encoder. *)
Lemma writtenKeys_encoding_run (args : list string) (fs' : gmap string File) :
  In (ffmpeg_exec args fs') (events run) ->
  exists b,
    decodeAudioData w audioFile = Some b
    /\ args = encoderArgs
    /\ writtenKeys (events run)
       = map frameKey (seq 0 (Z.to_nat (Exporter.totalFrames b))).
Proof.
  intros Hin.
  apply run_reaches_encoding in Hin as (b & Hdec & Hk & -> & -> & Hev).
  exists b. split; [exact Hdec|]. split; [reflexivity|].
  rewrite Hev. unfold writtenKeys. rewrite !omap_app.
  fold (writtenKeys (Trace.encodeTrace (an:=an) canvasWidth canvasHeight
          shadowOps encoderArgs outputFile mimeType settings w b
          (Z.to_nat (Exporter.totalFrames b)))).
  rewrite writtenKeys_encodeTrace, app_nil_r.
  apply (writtenKeys_frames (an:=an)).
Qed.

End SmoothRuns.

(** C3, evaluated on the code: the settings-aware exporter, asked for 60
    frames per second on a clip of 10 seconds, writes the 300 frames
    [frame000000.jpg] .. [frame000299.jpg] and then starts the encoder with
    [-framerate 60]; [ceil(10 * 60)] is 600. *)
Theorem C3_frame_count_ignores_target_fps :
  let es := {| resolution := res720p; fps := 60; format := mp4; quality := high |} in
  let props :=
    {| SettingsExporter.audioFile := []; SettingsExporter.imageFile := [];
       SettingsExporter.settings := defaultSettings;
       SettingsExporter.exportSettings := es |} in
  let w := smoothWorld (clip 10) 0 in
  writtenKeys (events (SettingsExporter.run (an:=sampleCounter) props w))
  = map frameKey (seq 0 300)
  /\ (exists rest, SettingsExporter.encoderArgs es
                   = "-framerate"%string :: "60"%string :: rest)
  /\ JS.Math_ceil (duration (clip 10) * inject_Z (fps es)) = 600%Z
  /\ Exporter.totalFrames (clip 10) = 300%Z.
Proof.
  cbv zeta. split; [|split; [eexists; reflexivity|split; reflexivity]].
  unfold SettingsExporter.run.
  match goal with
  | |- writtenKeys (events (Exporter.run ?cw ?ch ?sh ?ea ?out ?mime ?a ?i ?s ?w)) = _ =>
      pose proof (run_encodes (an:=sampleCounter) cw ch sh ea out mime a i s w
                    (clip 10) eq_refl eq_refl eq_refl (fun _ => eq_refl)) as Hin
  end.
  apply writtenKeys_encoding_run in Hin as (b & Hdec & _ & Hkeys).
  injection Hdec as <-. exact Hkeys.
Qed.

(** C10 (amended): in every run of the settings-aware exporter that gets to
    the encoder, the frames written are those of [ceil(duration * 30)]
    frame indices, whatever [exportSettings.fps] is, and the encoder is
    started with [-framerate exportSettings.fps]; the frame-derived
    duration [ceil(duration * 30) / fps] differs from the audio duration
    for every fps below 30, and for every fps above 30 when
    [duration * (fps - 30) >= 1]. *)
Theorem C10_capture_rate_fixed_encoder_rate_configured {an : AnalyserNode}
    (props : SettingsExporter.Props) (w : World)
    (args : list string) (fs' : gmap string File) :
  In (ffmpeg_exec args fs') (events (SettingsExporter.run (an:=an) props w)) ->
  exists b,
    let rate := fps (SettingsExporter.exportSettings props) in
    let frames := JS.Math_ceil (duration b * 30) in
    decodeAudioData w (SettingsExporter.audioFile props) = Some b
    /\ writtenKeys (events (SettingsExporter.run (an:=an) props w))
       = map frameKey (seq 0 (Z.to_nat frames))
    /\ (exists rest, args = "-framerate"%string :: JS.Z_toString rate :: rest)
    /\ (0 < duration b ->
        (0 < rate < 30)%Z
        \/ ((30 < rate)%Z /\ 1 <= duration b * inject_Z (rate - 30)) ->
        ~ inject_Z frames / inject_Z rate == duration b).
Proof.
  intros Hin. unfold SettingsExporter.run in *.
  apply writtenKeys_encoding_run in Hin as (b & Hdec & -> & Hkeys).
  exists b. cbv zeta. split; [exact Hdec|]. split; [exact Hkeys|].
  split; [eexists; reflexivity|].
  intros Hd Hrate Heq.
  set (rate := fps (SettingsExporter.exportSettings props)) in *.
  set (d := duration b) in *.
  pose proof (Qle_ceiling (d * 30)) as Hup.
  pose proof (Qceiling_lt (d * 30)) as Hlo.
  unfold JS.Math_ceil in Heq.
  rewrite inject_Z_minus in Hlo. change (inject_Z 1) with 1 in Hlo.
  set (n := inject_Z (Qceiling (d * 30))) in *.
  assert (Hr : 0 < inject_Z rate).
  { change 0 with (inject_Z 0). rewrite <- Zlt_Qlt.
    destruct Hrate as [?|[? _]]; lia. }
  assert (Hn : n == d * inject_Z rate).
  { rewrite <- Heq. field. lra. }
  destruct Hrate as [[_ Hlt]|[Hgt Hlong]].
  - assert (Hr30 : inject_Z rate < 30).
    { change 30 with (inject_Z 30). rewrite <- Zlt_Qlt. exact Hlt. }
    assert (0 < d * (30 - inject_Z rate)) by (apply Qmult_lt_0_compat; lra).
    lra.
  - rewrite inject_Z_minus in Hlong. change (inject_Z 30) with 30 in Hlong.
    lra.
Qed.

Lemma C10_capture_rate_fixed_encoder_rate_configured_witness :
  exists b,
    decodeAudioData (smoothWorld (clip 10) 0) [] = Some b
    /\ writtenKeys (events (SettingsExporter.run (an:=sampleCounter) props60
                              (smoothWorld (clip 10) 0)))
       = map frameKey (seq 0 (Z.to_nat (JS.Math_ceil (duration b * 30))))
    /\ ~ inject_Z (JS.Math_ceil (duration b * 30)) / inject_Z 60 == duration b.
Proof.
  pose proof (run_encodes (an:=sampleCounter)
                (SettingsExporter.canvasWidth (SettingsExporter.exportSettings props60))
                (SettingsExporter.canvasHeight (SettingsExporter.exportSettings props60))
                SettingsExporter.shadowOps
                (SettingsExporter.encoderArgs (SettingsExporter.exportSettings props60))
                (SettingsExporter.outputFile (SettingsExporter.exportSettings props60))
                (SettingsExporter.mimeType (SettingsExporter.exportSettings props60))
                [] [] defaultSettings (smoothWorld (clip 10) 0)
                (clip 10) eq_refl eq_refl eq_refl (fun _ => eq_refl)) as Hin.
  destruct (C10_capture_rate_fixed_encoder_rate_configured (an:=sampleCounter)
              props60 (smoothWorld (clip 10) 0) _ _ Hin)
    as (b & Hdec & Hkeys & _ & Hdiff).
  exists b. split; [exact Hdec|]. split; [exact Hkeys|].
  injection Hdec as <-.
  apply Hdiff; [reflexivity|].
  right. split; [reflexivity|]. discriminate.
Defined.

(** C10 fails as stated: at 60 frames per second and a clip of 1/60 s the
    exporter captures [ceil(30/60) = 1] frame, and the frame-derived
    duration 1/60 s equals the audio duration although fps is not 30. *)
Lemma C10_counterexample :
  let es := {| resolution := res720p; fps := 60; format := mp4; quality := high |} in
  let b := clip (1 # 60) in
  fps es <> 30%Z
  /\ 0 < duration b
  /\ Exporter.totalFrames b = 1%Z
  /\ inject_Z (JS.Math_ceil (duration b * 30)) / inject_Z (fps es) == duration b.
Proof.
  cbv zeta. repeat split. discriminate.
Qed.

(** ** When the analyser is read *)

(** The timer adds 1/30 s per iteration, the iterations add their cost. *)
Lemma playbackAt_closed (w : World) (frame : nat) :
  Trace.playbackAt w frame
  == inject_Z (Z.of_nat frame) / 30 + costBefore w frame.
Proof.
  induction frame as [|frame IH].
  - reflexivity.
  - cbn [Trace.playbackAt costBefore]. rewrite IH.
    rewrite Nat2Z.inj_succ. unfold Z.succ. rewrite inject_Z_plus.
    change (inject_Z 1) with 1. unfold Exporter.fps. field.
Qed.

Section SameTimings.

Context {an : AnalyserNode}.
Variables w w' : World.
Variable b : AudioBuffer.
Variable frame : nat.
Hypothesis same_cost :
  forall j, (j < frame)%nat -> frameCost w' j = frameCost w j.

Lemma playbackAt_same (i : nat) :
  (i <= frame)%nat -> Trace.playbackAt w' i = Trace.playbackAt w i.
Proof.
  induction i as [|i IH]; intros Hi; [reflexivity|].
  cbn [Trace.playbackAt]. rewrite IH by lia. rewrite same_cost by lia.
  reflexivity.
Qed.

Lemma analyserAt_same (i : nat) :
  (i <= frame)%nat ->
  Trace.analyserAt (an:=an) w' b i = Trace.analyserAt (an:=an) w b i.
Proof.
  induction i as [|i IH]; intros Hi; [reflexivity|].
  cbn [Trace.analyserAt]. rewrite IH by lia.
  rewrite playbackAt_same by lia. reflexivity.
Qed.

(** The reading for [frame] depends on the world only through the cost
    of the iterations before it. *)
Lemma spectrumAt_same :
  Trace.spectrumAt (an:=an) w' b frame = Trace.spectrumAt (an:=an) w b frame.
Proof.
  unfold Trace.spectrumAt.
  rewrite analyserAt_same, playbackAt_same by lia. reflexivity.
Qed.

End SameTimings.

Section Reads.

Context {an : AnalyserNode}.
Variables canvasWidth canvasHeight : Q.
Variable shadowOps : VisualizerSettings -> Color -> list CanvasOp.
Variable encoderArgs : list string.
Variables outputFile mimeType : string.
Variable settings : VisualizerSettings.
Variable w : World.
Variable b : AudioBuffer.

Lemma analyserReads_exportTrace :
  let count := Z.to_nat (Exporter.totalFrames b) in
  let k := framesWritten w count 0 in
  analyserReads
    (Trace.exportTrace (an:=an) canvasWidth canvasHeight shadowOps
       encoderArgs outputFile mimeType settings w b)
  = map (fun i => (Trace.playbackAt w i, Trace.spectrumAt (an:=an) w b i))
      (seq 0 (if decide (k < count)%nat then S k else count)).
Proof.
  cbv zeta. unfold Trace.exportTrace, Trace.captureTrace. cbv zeta.
  set (count := Z.to_nat (Exporter.totalFrames b)).
  pose proof (framesWritten_le w count 0) as Hle.
  match goal with
  | |- analyserReads (?e1 :: ?e2 :: ?e3 :: ?l) = _ =>
      change (e1 :: e2 :: e3 :: l) with ([e1; e2; e3] ++ l)
  end.
  unfold analyserReads. rewrite !omap_app.
  fold (analyserReads
          (flat_map (Trace.frameEvents (an:=an) canvasWidth canvasHeight
                       shadowOps settings w b)
             (seq 0 (framesWritten w count 0)))).
  rewrite analyserReads_frames.
  change (omap readOf [onProgress 0; onProgress 10; onProgress 20]) with
    (@nil (Q * list Byte.byte)).
  rewrite app_nil_l.
  destruct (decide _) as [Hlt|Hge].
  - rewrite seq_S, map_app. cbn [omap list_omap readOf Trace.frameAttempt
      map Nat.add]. rewrite app_nil_r. reflexivity.
  - replace (framesWritten w count 0) with count by lia.
    unfold Trace.encodeTrace.
    destruct (execOk w); [destruct (readOutput w)|];
      cbn [omap list_omap readOf]; rewrite !app_nil_r; reflexivity.
Qed.

End Reads.

(** C1 (amended): the spectrum used for frame [i] is the analyser's reading
    at the moment the capture loop gets to frame [i]; that reading is taken
    at playback position [i / 30] s plus the time the iterations before it
    cost on top of their timers, so it is fixed by the decoded audio and by
    those timings: two runs on the same audio whose earlier iterations took
    the same time read the same spectrum for frame [i]. *)
Theorem C1_spectrum_read_at_playback_position {an : AnalyserNode}
    (props : VideoExporter.Props) (w : World) (b : AudioBuffer) :
  ffmpegLoads w = true ->
  imageLoads w (VideoExporter.imageFile props) = true ->
  decodeAudioData w (VideoExporter.audioFile props) = Some b ->
  let totalFrames := Z.to_nat (Exporter.totalFrames b) in
  let captured := framesWritten w totalFrames 0 in
  analyserReads (events (VideoExporter.run (an:=an) props w))
  = map (fun i => (Trace.playbackAt w i, Trace.spectrumAt (an:=an) w b i))
      (seq 0 (if decide (captured < totalFrames)%nat
              then S captured else totalFrames))
  /\ (forall i,
        Trace.playbackAt w i == inject_Z (Z.of_nat i) / 30 + costBefore w i)
  /\ (forall w' i,
        (forall j, (j < i)%nat -> frameCost w' j = frameCost w j) ->
        Trace.spectrumAt (an:=an) w' b i = Trace.spectrumAt (an:=an) w b i).
Proof.
  intros Hload Himg Hdec. cbv zeta. unfold VideoExporter.run.
  rewrite run_events, Hload, Himg, Hdec.
  split; [apply analyserReads_exportTrace|].
  split; [apply playbackAt_closed|].
  intros w' i Hsame. apply spectrumAt_same. exact Hsame.
Qed.

Lemma C1_spectrum_read_at_playback_position_witness :
  analyserReads (events (VideoExporter.run (an:=sampleCounter) sampleProps
                           (smoothWorld (clip (1 # 10)) (1 # 60))))
  = map (fun i => (Trace.playbackAt (smoothWorld (clip (1 # 10)) (1 # 60)) i,
                   Trace.spectrumAt (an:=sampleCounter)
                     (smoothWorld (clip (1 # 10)) (1 # 60)) (clip (1 # 10)) i))
      (seq 0 3).
Proof.
  apply (C1_spectrum_read_at_playback_position (an:=sampleCounter) sampleProps
           (smoothWorld (clip (1 # 10)) (1 # 60)) (clip (1 # 10))
           eq_refl eq_refl eq_refl).
Defined.

(** C1 fails as stated: two runs on the same decoded audio, the same frame
    index 1 and the same window of 256 samples, one whose iterations cost
    nothing beyond the timer and one whose iterations cost 1/60 s more,
    read the analyser for frame 1 at playback positions 1/30 s and 1/20 s
    and draw different spectra. *)
Lemma C1_counterexample :
  let w1 := smoothWorld (clip (1 # 10)) 0 in
  let w2 := smoothWorld (clip (1 # 10)) (1 # 60) in
  let run1 := VideoExporter.run (an:=sampleCounter) sampleProps w1 in
  let run2 := VideoExporter.run (an:=sampleCounter) sampleProps w2 in
  decodeAudioData w1 (VideoExporter.audioFile sampleProps)
  = decodeAudioData w2 (VideoExporter.audioFile sampleProps)
  /\ spectra run1 !! 1%nat = Some (replicate 128 Byte.x02)
  /\ spectra run2 !! 1%nat = Some (replicate 128 Byte.x03)
  /\ spectra run1 !! 1%nat <> spectra run2 !! 1%nat.
Proof.
  cbv zeta.
  assert (H1 : spectra (VideoExporter.run (an:=sampleCounter) sampleProps
                          (smoothWorld (clip (1 # 10)) 0)) !! 1%nat
               = Some (replicate 128 Byte.x02)) by (vm_compute; reflexivity).
  assert (H2 : spectra (VideoExporter.run (an:=sampleCounter) sampleProps
                          (smoothWorld (clip (1 # 10)) (1 # 60))) !! 1%nat
               = Some (replicate 128 Byte.x03)) by (vm_compute; reflexivity).
  split; [reflexivity|]. split; [exact H1|]. split; [exact H2|].
  rewrite H1, H2. intros H. discriminate H.
Qed.


(** * Further properties of the code *)

(** ** How a run of the exporter ends *)

Lemma framesWritten_first_failure (w : World) (count k frame : nat) :
  (k < count)%nat ->
  (forall i, (i < k)%nat -> writeFileOk w (frame + i) = true) ->
  writeFileOk w (frame + k) = false ->
  framesWritten w count frame = k.
Proof.
  revert count frame. induction k as [|k IH]; intros count frame Hk Hok Hfail.
  - destruct count as [|count]; [lia|]. cbn [framesWritten].
    rewrite Nat.add_0_r in Hfail. rewrite Hfail. reflexivity.
  - destruct count as [|count]; [lia|]. cbn [framesWritten].
    pose proof (Hok 0%nat ltac:(lia)) as H0. rewrite Nat.add_0_r in H0.
    rewrite H0. f_equal. apply IH; [lia| |].
    + intros i Hi. replace (S frame + i)%nat with (frame + S i)%nat by lia.
      apply Hok. lia.
    + replace (S frame + k)%nat with (frame + S k)%nat by lia. exact Hfail.
Qed.

Section RunEndings.

Context {an : AnalyserNode}.
Variables canvasWidth canvasHeight : Q.
Variable shadowOps : VisualizerSettings -> Color -> list CanvasOp.
Variable encoderArgs : list string.
Variables outputFile mimeType : string.
Variables audioFile imageFile : list Byte.byte.
Variable settings : VisualizerSettings.
Variable w : World.

Local Abbreviation run :=
  (Exporter.run (an:=an) canvasWidth canvasHeight shadowOps encoderArgs
     outputFile mimeType audioFile imageFile settings w).
Local Abbreviation frameEvents :=
  (Trace.frameEvents (an:=an) canvasWidth canvasHeight shadowOps settings w).
Local Abbreviation frameAttempt :=
  (Trace.frameAttempt (an:=an) canvasWidth canvasHeight shadowOps settings w).
Local Abbreviation captureTrace :=
  (Trace.captureTrace (an:=an) canvasWidth canvasHeight shadowOps settings w).
Local Abbreviation encodeTrace :=
  (Trace.encodeTrace (an:=an) canvasWidth canvasHeight shadowOps encoderArgs
     outputFile mimeType settings w).

(** X1: when [ffmpeg.load] rejects, the run invokes the error callback with
    "Failed to load FFmpeg" and does nothing else: no progress is reported
    and [exportVideo] is not entered. *)
Theorem load_failure_reports_ffmpeg_error :
  ffmpegLoads w = false ->
  events run = [onError "Failed to load FFmpeg"]
  /\ outcome run = Fulfilled tt.
Proof.
  intros Hload. rewrite run_events, run_outcome, Hload. auto.
Qed.

(** X2: when the audio cannot be decoded, the run has reported 0 and 10,
    invokes the error callback with "Failed to export video", and has
    neither read the analyser, nor written a file, nor started the
    encoder. *)
Theorem decode_failure_aborts_before_capture :
  ffmpegLoads w = true ->
  imageLoads w imageFile = true ->
  decodeAudioData w audioFile = None ->
  events run = [onProgress 0; onProgress 10; onError "Failed to export video"].
Proof.
  intros Hload Himg Hdec. rewrite run_events, Hload, Himg, Hdec. reflexivity.
Qed.

(** X3: when the [writeFile] of frame [k] is the first to reject, the run
    has handled frames 0 .. k - 1 in full, has read the analyser and tried
    the write for frame [k], and then invokes the error callback: the
    encoder is never started, no later frame is touched, and the frames
    already written stay in the file system. *)
Theorem writeFile_failure_aborts_capture (b : AudioBuffer) (k : nat) :
  ffmpegLoads w = true ->
  imageLoads w imageFile = true ->
  decodeAudioData w audioFile = Some b ->
  (k < Z.to_nat (Exporter.totalFrames b))%nat ->
  (forall i, (i < k)%nat -> writeFileOk w i = true) ->
  writeFileOk w k = false ->
  events run
  = [onProgress 0; onProgress 10; onProgress 20]
    ++ flat_map (frameEvents b) (seq 0 k)
    ++ frameAttempt b k
    ++ [onError "Failed to export video"]
  /\ writtenKeys (events run) = map frameKey (seq 0 (S k))
  /\ (forall args fs', ~ In (ffmpeg_exec args fs') (events run))
  /\ (forall url, ~ In (onComplete url) (events run)).
Proof.
  intros Hload Himg Hdec Hk Hok Hfail.
  assert (Hwritten : framesWritten w (Z.to_nat (Exporter.totalFrames b)) 0 = k).
  { apply framesWritten_first_failure; [exact Hk| |exact Hfail].
    intros i Hi. apply Hok. exact Hi. }
  assert (Hev : events run
    = [onProgress 0; onProgress 10; onProgress 20]
      ++ flat_map (frameEvents b) (seq 0 k)
      ++ frameAttempt b k ++ [onError "Failed to export video"]).
  { rewrite run_events, Hload, Himg, Hdec.
    unfold Trace.exportTrace, Trace.captureTrace. cbv zeta. rewrite Hwritten.
    destruct (decide (k < Z.to_nat (Exporter.totalFrames b))%nat); [|lia].
    cbn [app]. rewrite <- !app_assoc. reflexivity. }
  split; [exact Hev|].
  split.
  { rewrite Hev. unfold writtenKeys. rewrite !omap_app.
    fold (writtenKeys (flat_map (frameEvents b) (seq 0 k))).
    rewrite (writtenKeys_frames (an:=an)).
    rewrite seq_S, map_app. reflexivity. }
  assert (Hnone : forall e, isCaptureEvent e -> isTerminal e = false) by
    (intros []; simpl; tauto).
  assert (Hin : forall e, In e (events run) ->
            isCaptureEvent e \/ e = onError "Failed to export video").
  { intros e. rewrite Hev. intros He.
    apply in_app_or in He as [He|He].
    { left. repeat (destruct He as [<-|He]; [exact I|]). contradiction. }
    apply in_app_or in He as [He|He].
    { left. pose proof (frames_capture_events (an:=an) canvasWidth canvasHeight
                          shadowOps settings w b (seq 0 k)) as Hall.
      rewrite Forall_forall in Hall. apply Hall, list_elem_of_In, He. }
    apply in_app_or in He as [He|He].
    { left. repeat (destruct He as [<-|He]; [exact I|]). contradiction. }
    destruct He as [<-|[]]. right. reflexivity. }
  split.
  - intros args fs' He. apply Hin in He as [He|He]; [exact He|discriminate He].
  - intros url He. apply Hin in He as [He|He]; [exact He|discriminate He].
Qed.

End RunEndings.

(** Membership in an explicit list of events of the wrong kind. *)
Ltac absurd_in H :=
  unfold Trace.frameAttempt in H; cbn [app In] in H;
  repeat (destruct H as [H|H]; try discriminate H); try contradiction.

Section RunCallbacks.

Context {an : AnalyserNode}.
Variables canvasWidth canvasHeight : Q.
Variable shadowOps : VisualizerSettings -> Color -> list CanvasOp.
Variable encoderArgs : list string.
Variables outputFile mimeType : string.
Variables audioFile imageFile : list Byte.byte.
Variable settings : VisualizerSettings.
Variable w : World.

Local Abbreviation run :=
  (Exporter.run (an:=an) canvasWidth canvasHeight shadowOps encoderArgs
     outputFile mimeType audioFile imageFile settings w).
Local Abbreviation frameEvents :=
  (Trace.frameEvents (an:=an) canvasWidth canvasHeight shadowOps settings w).
Local Abbreviation frameAttempt :=
  (Trace.frameAttempt (an:=an) canvasWidth canvasHeight shadowOps settings w).
Local Abbreviation fsAt :=
  (Trace.fsAt (an:=an) canvasWidth canvasHeight shadowOps settings w).

(** Every run of the exporter has one of seven shapes. *)
Lemma run_shape :
  events run = [onError "Failed to load FFmpeg"]
  \/ events run = [onProgress 0]
  \/ events run = [onProgress 0; onProgress 10; onError "Failed to export video"]
  \/ exists b captured tail,
       decodeAudioData w audioFile = Some b
       /\ (captured <= Z.to_nat (Exporter.totalFrames b))%nat
       /\ events run
          = [onProgress 0; onProgress 10; onProgress 20]
            ++ flat_map (frameEvents b) (seq 0 captured) ++ tail
       /\ (((captured < Z.to_nat (Exporter.totalFrames b))%nat
            /\ tail = frameAttempt b captured ++ [onError "Failed to export video"])
           \/ (captured = Z.to_nat (Exporter.totalFrames b)
               /\ (tail = [ffmpeg_exec encoderArgs (fsAt b captured);
                           onError "Failed to export video"]
                   \/ tail = [ffmpeg_exec encoderArgs (fsAt b captured);
                              onProgress 90; ffmpeg_readFile outputFile;
                              onError "Failed to export video"]
                   \/ exists data,
                        readOutput w = Some data
                        /\ tail = [ffmpeg_exec encoderArgs (fsAt b captured);
                                   onProgress 90; ffmpeg_readFile outputFile;
                                   onProgress 100;
                                   onComplete {| blobType := mimeType;
                                                 blobData := data |}]))).
Proof.
  rewrite run_events.
  destruct (ffmpegLoads w); [|auto].
  destruct (imageLoads w imageFile); [|auto].
  destruct (decodeAudioData w audioFile) as [b|]; [|auto].
  do 3 right.
  unfold Trace.exportTrace, Trace.captureTrace. cbv zeta.
  set (count := Z.to_nat (Exporter.totalFrames b)).
  pose proof (framesWritten_le w count 0) as Hle.
  exists b, (framesWritten w count 0).
  destruct (decide _) as [Hlt|Hge].
  - eexists. split; [reflexivity|]. split; [lia|].
    split; [cbn [app]; rewrite <- !app_assoc; reflexivity|].
    left. auto.
  - assert (Hk : framesWritten w count 0 = count) by lia. rewrite Hk.
    eexists. split; [reflexivity|]. split; [lia|].
    split; [cbn [app]; rewrite app_nil_r; reflexivity|].
    right. split; [reflexivity|]. unfold Trace.encodeTrace.
    destruct (execOk w); [|auto].
    destruct (readOutput w) as [data|]; [|auto].
    right. right. exists data. auto.
Qed.

Lemma frames_not_terminal (b : AudioBuffer) (l : list nat) :
  Forall (fun e => isTerminal e = false) (flat_map (frameEvents b) l).
Proof.
  induction l as [|i l IH]; [constructor|].
  cbn [flat_map]. apply Forall_app_2; [|exact IH]. repeat constructor.
Qed.

(** X4: unless the image never loads, a run invokes exactly one of
    [onComplete] and [onError], exactly once, and it is the last thing the
    run does. *)
Theorem run_ends_with_one_callback :
  ffmpegLoads w = false \/ imageLoads w imageFile = true ->
  exists before last,
    events run = before ++ [last]
    /\ isTerminal last = true
    /\ Forall (fun e => isTerminal e = false) before.
Proof.
  intros Hcase.
  assert (Hnot0 : events run <> [onProgress 0]).
  { rewrite run_events. destruct Hcase as [-> | Himg]; [discriminate|].
    rewrite Himg. destruct (ffmpegLoads w); [|discriminate].
    destruct (decodeAudioData w audioFile); [|discriminate].
    unfold Trace.exportTrace. discriminate. }
  destruct run_shape as [H|[H|[H|H]]].
  - exists [], (onError "Failed to load FFmpeg"). rewrite H. auto.
  - contradiction.
  - exists [onProgress 0; onProgress 10], (onError "Failed to export video").
    rewrite H. repeat constructor.
  - destruct H as (b & k & tail & _ & _ & Hev & Htail).
    pose proof (frames_not_terminal b (seq 0 k)) as Hframes.
    rewrite Hev.
    destruct Htail as [[_ ->]|[_ [->|[->|(data & _ & ->)]]]].
    + eexists. eexists. split.
      { rewrite !app_assoc. reflexivity. }
      split; [reflexivity|].
      repeat apply Forall_app_2; repeat constructor. exact Hframes.
    + eexists. eexists. split.
      { change [ffmpeg_exec encoderArgs (fsAt b k); onError "Failed to export video"]
          with ([ffmpeg_exec encoderArgs (fsAt b k)]
                ++ [onError "Failed to export video"]).
        rewrite !app_assoc. reflexivity. }
      split; [reflexivity|].
      repeat apply Forall_app_2; repeat constructor. exact Hframes.
    + eexists. eexists. split.
      { change [ffmpeg_exec encoderArgs (fsAt b k); onProgress 90;
                ffmpeg_readFile outputFile; onError "Failed to export video"]
          with ([ffmpeg_exec encoderArgs (fsAt b k); onProgress 90;
                 ffmpeg_readFile outputFile]
                ++ [onError "Failed to export video"]).
        rewrite !app_assoc. reflexivity. }
      split; [reflexivity|].
      repeat apply Forall_app_2; repeat constructor. exact Hframes.
    + eexists. eexists. split.
      { change [ffmpeg_exec encoderArgs (fsAt b k); onProgress 90;
                ffmpeg_readFile outputFile; onProgress 100;
                onComplete {| blobType := mimeType; blobData := data |}]
          with ([ffmpeg_exec encoderArgs (fsAt b k); onProgress 90;
                 ffmpeg_readFile outputFile; onProgress 100]
                ++ [onComplete {| blobType := mimeType; blobData := data |}]).
        rewrite !app_assoc. reflexivity. }
      split; [reflexivity|].
      repeat apply Forall_app_2; repeat constructor. exact Hframes.
Qed.

Lemma frames_progress_below_100 (b : AudioBuffer) (k : nat) :
  (k <= Z.to_nat (Exporter.totalFrames b))%nat ->
  ~ In (onProgress 100) (flat_map (frameEvents b) (seq 0 k)).
Proof.
  intros Hk Hin. apply in_flat_map in Hin as (i & Hi & Hin).
  apply in_seq in Hi.
  pose proof (renderProgress_range b i ltac:(lia)) as Hr.
  repeat (destruct Hin as [Hin|Hin]; try discriminate Hin); [|contradiction].
  injection Hin as Hin. lia.
Qed.

(** X5: progress 100 is reported exactly in the runs that complete: a run
    reports 100 if and only if it invokes [onComplete]. *)
Theorem progress_100_iff_complete :
  In (onProgress 100) (events run)
  <-> exists url, In (onComplete url) (events run).
Proof.
  destruct run_shape as [H|[H|[H|H]]].
  - rewrite H. split.
    + intros [Hin|[]]. discriminate Hin.
    + intros (url & [Hin|[]]). discriminate Hin.
  - rewrite H. split.
    + intros [Hin|[]]. discriminate Hin.
    + intros (url & [Hin|[]]). discriminate Hin.
  - rewrite H. split.
    + intros Hin. repeat (destruct Hin as [Hin|Hin]; try discriminate Hin).
      contradiction.
    + intros (url & Hin).
      repeat (destruct Hin as [Hin|Hin]; try discriminate Hin). contradiction.
  - destruct H as (b & k & tail & _ & Hk & Hev & Htail). rewrite Hev.
    cbn [app].
    pose proof (frames_progress_below_100 b k Hk) as Hlow.
    pose proof (frames_not_terminal b (seq 0 k)) as Hframes.
    rewrite Forall_forall in Hframes.
    assert (Hnoc : forall url, ~ In (onComplete url) (flat_map (frameEvents b) (seq 0 k))).
    { intros url Hin. apply list_elem_of_In, Hframes in Hin. discriminate Hin. }
    destruct Htail as [[_ ->]|[_ [->|[->|(data & _ & ->)]]]].
    + split.
      * intros Hin. exfalso.
        destruct Hin as [Hin|[Hin|[Hin|Hin]]]; try discriminate Hin.
        apply in_app_or in Hin as [Hin|Hin]; [contradiction|].
        absurd_in Hin.
      * intros (url & Hin). exfalso.
        destruct Hin as [Hin|[Hin|[Hin|Hin]]]; try discriminate Hin.
        apply in_app_or in Hin as [Hin|Hin]; [apply (Hnoc url Hin)|].
        absurd_in Hin.
    + split.
      * intros Hin. exfalso.
        destruct Hin as [Hin|[Hin|[Hin|Hin]]]; try discriminate Hin.
        apply in_app_or in Hin as [Hin|Hin]; [contradiction|].
        absurd_in Hin.
      * intros (url & Hin). exfalso.
        destruct Hin as [Hin|[Hin|[Hin|Hin]]]; try discriminate Hin.
        apply in_app_or in Hin as [Hin|Hin]; [apply (Hnoc url Hin)|].
        absurd_in Hin.
    + split.
      * intros Hin. exfalso.
        destruct Hin as [Hin|[Hin|[Hin|Hin]]]; try discriminate Hin.
        apply in_app_or in Hin as [Hin|Hin]; [contradiction|].
        absurd_in Hin.
      * intros (url & Hin). exfalso.
        destruct Hin as [Hin|[Hin|[Hin|Hin]]]; try discriminate Hin.
        apply in_app_or in Hin as [Hin|Hin]; [apply (Hnoc url Hin)|].
        absurd_in Hin.
    + split.
      * intros _. eexists. do 3 right. apply in_or_app. right.
        do 4 right. left. reflexivity.
      * intros _. do 3 right. apply in_or_app. right.
        do 3 right. left. reflexivity.
Qed.

End RunCallbacks.

Lemma load_failure_reports_ffmpeg_error_witness :
  events (VideoExporter.run (an:=sampleCounter) sampleProps
            (troubledWorld false true true None true (Some [])))
  = [onError "Failed to load FFmpeg"].
Proof.
  apply (load_failure_reports_ffmpeg_error (an:=sampleCounter)). reflexivity.
Defined.

Lemma decode_failure_aborts_before_capture_witness :
  events (VideoExporter.run (an:=sampleCounter) sampleProps
            (troubledWorld true true false None true (Some [])))
  = [onProgress 0; onProgress 10; onError "Failed to export video"].
Proof.
  apply (decode_failure_aborts_before_capture (an:=sampleCounter)); reflexivity.
Defined.

Lemma writeFile_failure_aborts_capture_witness :
  writtenKeys
    (events (VideoExporter.run (an:=sampleCounter) sampleProps
               (troubledWorld true true true (Some 1%nat) true (Some []))))
  = ["frame000000.jpg"; "frame000001.jpg"]%string.
Proof.
  apply (writeFile_failure_aborts_capture (an:=sampleCounter)
           VideoExporter.canvasWidth VideoExporter.canvasHeight
           VideoExporter.shadowOps VideoExporter.encoderArgs
           VideoExporter.outputFile VideoExporter.mimeType [] []
           defaultSettings
           (troubledWorld true true true (Some 1%nat) true (Some []))
           (clip (1 # 10)) 1);
    try reflexivity.
  - vm_compute. lia.
  - intros i Hi. assert (i = 0%nat) as -> by lia. reflexivity.
Defined.

Lemma run_ends_with_one_callback_witness :
  exists before last,
    events (VideoExporter.run (an:=sampleCounter) sampleProps
              (troubledWorld true true true None false (Some [])))
    = before ++ [last]
    /\ isTerminal last = true.
Proof.
  destruct (run_ends_with_one_callback (an:=sampleCounter)
              VideoExporter.canvasWidth VideoExporter.canvasHeight
              VideoExporter.shadowOps VideoExporter.encoderArgs
              VideoExporter.outputFile VideoExporter.mimeType [] []
              defaultSettings
              (troubledWorld true true true None false (Some []))
              (or_intror eq_refl))
    as (before & last & Hev & Hlast & _).
  exists before, last. auto.
Defined.

(** ** What a run leaves in the file system *)

Section RunFiles.

Context {an : AnalyserNode}.
Variables canvasWidth canvasHeight : Q.
Variable shadowOps : VisualizerSettings -> Color -> list CanvasOp.
Variable encoderArgs : list string.
Variables outputFile mimeType : string.
Variables audioFile imageFile : list Byte.byte.
Variable settings : VisualizerSettings.
Variable w : World.

Local Abbreviation run :=
  (Exporter.run (an:=an) canvasWidth canvasHeight shadowOps encoderArgs
     outputFile mimeType audioFile imageFile settings w).
Local Abbreviation fsAt :=
  (Trace.fsAt (an:=an) canvasWidth canvasHeight shadowOps settings w).
Local Abbreviation imageAt :=
  (Trace.imageAt (an:=an) canvasWidth canvasHeight shadowOps settings w).
Local Abbreviation canvasAt :=
  (Trace.canvasAt (an:=an) shadowOps settings w).





End RunFiles.

Section FrameSize.

Context {an : AnalyserNode}.
Variables canvasWidth canvasHeight : Q.
Variable shadowOps : VisualizerSettings -> Color -> list CanvasOp.
Variable settings : VisualizerSettings.
Variable w : World.
Variable b : AudioBuffer.
Hypothesis shadow_only :
  forall s c, Forall coversHD (shadowOps s c).

Lemma drawBar_coversHD (i : nat) (v : Byte.byte) :
  Forall coversHD (Exporter.drawBar shadowOps settings i v).
Proof.
  unfold Exporter.drawBar. cbv zeta.
  apply Forall_app_2; [apply shadow_only|].
  destruct (shape settings), (position settings); repeat constructor.
Qed.

Lemma drawBars_coversHD (i : nat) (dataArray : list Byte.byte) :
  Forall coversHD (Exporter.drawBars shadowOps settings i dataArray).
Proof.
  revert i. induction dataArray as [|v rest IH]; intros i; cbn [Exporter.drawBars].
  - constructor.
  - apply Forall_app_2; [apply drawBar_coversHD|apply IH].
Qed.

Lemma canvasAt_coversHD (frame : nat) :
  Forall coversHD (Trace.canvasAt (an:=an) shadowOps settings w b frame).
Proof.
  induction frame as [|frame IH]; cbn [Trace.canvasAt]; [constructor|].
  apply Forall_app_2; [exact IH|].
  unfold Exporter.renderFrame.
  constructor; [cbv; auto|]. constructor; [cbv; auto|].
  apply drawBars_coversHD.
Qed.

End FrameSize.

(** X7: in the settings-aware exporter every frame handed to the encoder is
    a snapshot of a canvas of the configured size (1920 by 1080 at 1080p,
    1280 by 720 otherwise), while every [clearRect] and [drawImage] ever
    made on that canvas covers 1280 by 720 pixels from the origin: at 1080p
    the background fills only the top-left part of the frame. *)
Theorem frames_have_configured_size_hd_background {an : AnalyserNode}
    (props : SettingsExporter.Props) (w : World)
    (args : list string) (fs' : gmap string File)
    (path : string) (data : File) :
  In (ffmpeg_exec args fs') (events (SettingsExporter.run (an:=an) props w)) ->
  fs' !! path = Some data ->
  exists f,
    data = base64Jpeg f
    /\ (frameWidth f, frameHeight f)
       = match resolution (SettingsExporter.exportSettings props) with
         | res1080p => (1920, 1080)
         | res720p => (1280, 720)
         end
    /\ Forall coversHD (painted f).
Proof.
  intros Hin Hdata. unfold SettingsExporter.run in Hin.
  apply run_reaches_encoding in Hin as (b & _ & _ & _ & -> & _).
  apply fsAt_lookup in Hdata as (i & _ & _ & ->).
  eexists. split; [reflexivity|]. split.
  - cbn [frameWidth frameHeight Trace.imageAt].
    unfold SettingsExporter.canvasWidth, SettingsExporter.canvasHeight.
    destruct (resolution (SettingsExporter.exportSettings props)); reflexivity.
  - cbn [painted Trace.imageAt]. apply canvasAt_coversHD.
    intros s c. unfold SettingsExporter.shadowOps.
    destruct (glow s); repeat constructor.
Qed.

Lemma frames_have_configured_size_hd_background_witness :
  exists f,
    base64Jpeg
      (Trace.imageAt (an:=sampleCounter)
         (SettingsExporter.canvasWidth (SettingsExporter.exportSettings props60))
         (SettingsExporter.canvasHeight (SettingsExporter.exportSettings props60))
         SettingsExporter.shadowOps defaultSettings (smoothWorld (clip 10) 0)
         (clip 10) 0)
    = base64Jpeg f
    /\ (frameWidth f, frameHeight f) = (1280, 720).
Proof.
  pose proof (run_encodes (an:=sampleCounter)
                (SettingsExporter.canvasWidth (SettingsExporter.exportSettings props60))
                (SettingsExporter.canvasHeight (SettingsExporter.exportSettings props60))
                SettingsExporter.shadowOps
                (SettingsExporter.encoderArgs (SettingsExporter.exportSettings props60))
                (SettingsExporter.outputFile (SettingsExporter.exportSettings props60))
                (SettingsExporter.mimeType (SettingsExporter.exportSettings props60))
                [] [] defaultSettings (smoothWorld (clip 10) 0)
                (clip 10) eq_refl eq_refl eq_refl (fun _ => eq_refl)) as Hin.
  destruct (frames_have_configured_size_hd_background (an:=sampleCounter)
              props60 (smoothWorld (clip 10) 0) _ _ (frameKey 0) _ Hin
              (fsAt_lookup_frame (an:=sampleCounter) _ _ _ _ _ _ 300 0
                 ltac:(lia)))
    as (f & Hf & Hsize & _).
  exists f. split; [exact Hf|exact Hsize].
Defined.

(** ** The encoder's output in the settings-aware exporter *)

Section CompletedRuns.

Context {an : AnalyserNode}.
Variables canvasWidth canvasHeight : Q.
Variable shadowOps : VisualizerSettings -> Color -> list CanvasOp.
Variable encoderArgs : list string.
Variables outputFile mimeType : string.
Variables audioFile imageFile : list Byte.byte.
Variable settings : VisualizerSettings.
Variable w : World.

Local Abbreviation run :=
  (Exporter.run (an:=an) canvasWidth canvasHeight shadowOps encoderArgs
     outputFile mimeType audioFile imageFile settings w).

(** The shape of a run that invokes [onComplete]. *)
Lemma run_completed_shape (url : ObjectURL) :
  In (onComplete url) (events run) ->
  exists b data,
    decodeAudioData w audioFile = Some b
    /\ readOutput w = Some data
    /\ url = {| blobType := mimeType; blobData := data |}
    /\ events run
       = [onProgress 0; onProgress 10; onProgress 20]
         ++ flat_map (Trace.frameEvents (an:=an) canvasWidth canvasHeight
                        shadowOps settings w b)
              (seq 0 (Z.to_nat (Exporter.totalFrames b)))
         ++ [ffmpeg_exec encoderArgs
               (Trace.fsAt (an:=an) canvasWidth canvasHeight shadowOps
                  settings w b (Z.to_nat (Exporter.totalFrames b)));
             onProgress 90; ffmpeg_readFile outputFile; onProgress 100;
             onComplete url].
Proof.
  intros Hin.
  destruct (run_shape (an:=an) canvasWidth canvasHeight shadowOps encoderArgs
              outputFile mimeType audioFile imageFile settings w)
    as [H|[H|[H|H]]].
  - rewrite H in Hin. absurd_in Hin.
  - rewrite H in Hin. absurd_in Hin.
  - rewrite H in Hin. absurd_in Hin.
  - destruct H as (b & k & tail & Hdec & Hk & Hev & Htail).
    pose proof (frames_not_terminal (an:=an) canvasWidth canvasHeight shadowOps
                  settings w b (seq 0 k)) as Hframes.
    rewrite Forall_forall in Hframes.
    assert (Hnoc : ~ In (onComplete url)
                     (flat_map (Trace.frameEvents (an:=an) canvasWidth
                                  canvasHeight shadowOps settings w b) (seq 0 k))).
    { intros Hc. apply list_elem_of_In, Hframes in Hc. discriminate Hc. }
    rewrite Hev in Hin. cbn [app] in Hin.
    destruct Hin as [Hin|[Hin|[Hin|Hin]]]; try discriminate Hin.
    apply in_app_or in Hin as [Hin|Hin]; [contradiction|].
    destruct Htail as [[_ ->]|[-> [->|[->|(data & Hread & ->)]]]];
      try (exfalso; absurd_in Hin; fail).
    exists b, data.
    assert (Hurl : url = {| blobType := mimeType; blobData := data |}).
    { repeat (destruct Hin as [Hin|Hin]; try discriminate Hin);
        [congruence|contradiction]. }
    subst url. rewrite Hev. auto.
Qed.

End CompletedRuns.

(** X8: when the settings-aware exporter completes, the container it asked
    the encoder for, the file it read back and the type of the blob it
    hands to [onComplete] agree with [exportSettings.format]: for webm the
    last encoder argument and the file read are [output.webm], the codecs
    are libvpx-vp9 and libvorbis and the blob is [video/webm]; otherwise
    they are [output.mp4], libx264 and aac, and [video/mp4]. *)
Theorem completed_export_matches_format {an : AnalyserNode}
    (props : SettingsExporter.Props) (w : World) (url : ObjectURL) :
  In (onComplete url) (events (SettingsExporter.run (an:=an) props w)) ->
  exists args fs' file videoCodec audioCodec,
    In (ffmpeg_exec args fs') (events (SettingsExporter.run (an:=an) props w))
    /\ In (ffmpeg_readFile file) (events (SettingsExporter.run (an:=an) props w))
    /\ last args = Some file
    /\ (exists before after,
          args = before ++ ["-c:v"; videoCodec; "-c:a"; audioCodec]%string ++ after)
    /\ (file, videoCodec, audioCodec, blobType url)
       = match format (SettingsExporter.exportSettings props) with
         | webm => ("output.webm", "libvpx-vp9", "libvorbis", "video/webm")
         | mp4 => ("output.mp4", "libx264", "aac", "video/mp4")
         end%string.
Proof.
  intros Hin. unfold SettingsExporter.run in *.
  apply run_completed_shape in Hin.
  destruct Hin as (b & data & _ & _ & Hurl & Hev). subst url.
  rewrite Hev. cbn [app].
  exists (SettingsExporter.encoderArgs (SettingsExporter.exportSettings props)).
  eexists. eexists. eexists. eexists.
  split.
  { do 3 right. apply in_or_app. right. left. reflexivity. }
  split.
  { do 3 right. apply in_or_app. right. do 2 right. left. reflexivity. }
  unfold SettingsExporter.encoderArgs, SettingsExporter.outputFile,
    SettingsExporter.mimeType, SettingsExporter.codec, SettingsExporter.outputExt.
  split; [reflexivity|].
  split.
  { exists ["-framerate";
            JS.Z_toString (fps (SettingsExporter.exportSettings props));
            "-i"; "frame%06d.jpg"; "-i"; "input.mp3"]%string.
    eexists. cbn [app]. reflexivity. }
  cbn [blobType].
  destruct (format (SettingsExporter.exportSettings props)); reflexivity.
Qed.

Lemma completed_export_matches_format_witness :
  exists args fs' file,
    In (ffmpeg_exec args fs')
       (events (SettingsExporter.run (an:=sampleCounter) props60
                  (smoothWorld (clip (1 # 10)) 0)))
    /\ last args = Some file
    /\ file = "output.mp4"%string.
Proof.
  assert (Hin : In (onComplete {| blobType := "video/mp4"; blobData := [] |})
                  (events (SettingsExporter.run (an:=sampleCounter) props60
                             (smoothWorld (clip (1 # 10)) 0)))).
  { vm_compute. do 16 right. left. reflexivity. }
  destruct (completed_export_matches_format (an:=sampleCounter) props60
              (smoothWorld (clip (1 # 10)) 0) _ Hin)
    as (args & fs' & file & vc & ac & Hexec & _ & Hlast & _ & Hfmt).
  exists args, fs', file. split; [exact Hexec|]. split; [exact Hlast|].
  cbn in Hfmt. congruence.
Defined.

(** ** Where the bars are drawn *)

Lemma length_fillUint8Array (bufferLength : nat) (written : list Byte.byte) :
  length (fillUint8Array bufferLength written) = bufferLength.
Proof.
  unfold fillUint8Array. rewrite length_take, length_app, length_replicate. lia.
Qed.

(** X9: for every height scale the page's slider allows (up to 2) a bar of
    the exporter stays inside the 720 pixels of the canvas: its height is
    between 0 and 432, its top is not above the canvas and its bottom not
    below it, and a bar anchored at the bottom ends exactly on the lower
    edge, one anchored at the top starts on the upper edge. *)
Theorem exporter_bar_stays_on_canvas (settings : VisualizerSettings)
    (v : Byte.byte) :
  0 <= barHeight settings <= 2 ->
  let h := Exporter.barHeightPx settings v in
  let y := Exporter.barY settings h in
  0 <= h <= 432
  /\ 0 <= y
  /\ y + h <= 720
  /\ match position settings with
     | bottom => y + h == 720
     | top => y == 0
     end.
Proof.
  intros [Hlo Hhi]. cbv zeta.
  pose proof (byteValue_range v) as [Hv0 Hv255].
  assert (Hprod : 0 <= byteValue v * barHeight settings <= 510).
  { split; [apply Qmult_le_0_compat; assumption|].
    apply Qle_trans with (255 * barHeight settings).
    - apply Qmult_le_compat_r; assumption.
    - lra. }
  assert (Hh : Exporter.barHeightPx settings v
               == byteValue v * barHeight settings * (216 / 255)).
  { unfold Exporter.barHeightPx. rewrite maxBarHeight_eq. reflexivity. }
  assert (Hrange : 0 <= Exporter.barHeightPx settings v <= 432).
  { rewrite Hh. set (p := byteValue v * barHeight settings) in *.
    assert (H216 : 216 / 255 == 72 # 85) by reflexivity.
    rewrite H216. split; lra. }
  split; [exact Hrange|].
  unfold Exporter.barY. destruct (position settings); repeat split; lra.
Qed.

Lemma exporter_bar_stays_on_canvas_witness :
  0 <= Exporter.barHeightPx defaultSettings Byte.xff <= 432.
Proof.
  apply (exporter_bar_stays_on_canvas defaultSettings Byte.xff).
  split; [discriminate|discriminate].
Defined.

Section ExporterSpans.

Variable shadowOps : VisualizerSettings -> Color -> list CanvasOp.
Variable settings : VisualizerSettings.
Hypothesis shadow_no_bar :
  forall s c rest, barSpans (shadowOps s c ++ rest) = barSpans rest.

Lemma barSpans_drawBar (i : nat) (v : Byte.byte) (rest : list CanvasOp) :
  barSpans (Exporter.drawBar shadowOps settings i v ++ rest)
  = (inject_Z (Z.of_nat i) * Exporter.barWidth settings,
     inject_Z (Z.of_nat i) * Exporter.barWidth settings
     + Exporter.barWidth settings)
    :: barSpans rest.
Proof.
  unfold Exporter.drawBar. cbv zeta. rewrite <- app_assoc, shadow_no_bar.
  destruct (shape settings), (position settings); reflexivity.
Qed.

Lemma barSpans_drawBars (i : nat) (dataArray : list Byte.byte) :
  barSpans (Exporter.drawBars shadowOps settings i dataArray)
  = map (fun j => (inject_Z (Z.of_nat j) * Exporter.barWidth settings,
                   inject_Z (Z.of_nat j) * Exporter.barWidth settings
                   + Exporter.barWidth settings))
      (seq i (length dataArray)).
Proof.
  revert i. induction dataArray as [|v rest IH]; intros i; [reflexivity|].
  cbn [Exporter.drawBars length seq map].
  rewrite barSpans_drawBar, IH. reflexivity.
Qed.

End ExporterSpans.

(** X10: in every frame of the exporter, whatever the shape, the 128 bars
    are drawn side by side from the left edge: bar [j] covers
    [j * barWidth] to [j * barWidth + barWidth], which is where bar [j + 1]
    starts, so [settings.barSpacing] narrows the bars but never separates
    them, and the row ends at [1280 - 127 * barSpacing]. *)
Theorem exporter_bars_are_contiguous (settings : VisualizerSettings)
    (written : list Byte.byte) :
  let barWidth := Exporter.barWidth settings in
  barSpans (Exporter.renderFrame VideoExporter.shadowOps settings
              (fillUint8Array Exporter.bufferLength written))
  = map (fun j => (inject_Z (Z.of_nat j) * barWidth,
                   inject_Z (Z.of_nat j) * barWidth + barWidth))
      (seq 0 128)
  /\ (forall j : nat,
        inject_Z (Z.of_nat j) * barWidth + barWidth
        == inject_Z (Z.of_nat (S j)) * barWidth)
  /\ inject_Z (Z.of_nat 127) * barWidth + barWidth
     == 1280 - 127 * barSpacing settings.
Proof.
  cbv zeta. split; [|split].
  - unfold Exporter.renderFrame. cbn [barSpans].
    rewrite barSpans_drawBars by reflexivity.
    rewrite length_fillUint8Array. reflexivity.
  - apply bar_right_edge.
  - apply last_bar_right_edge.
Qed.

Section PreviewSpans.

Variable settings : VisualizerSettings.

Local Abbreviation barWidth := (Preview.barWidth settings).
Local Abbreviation spacing := (barSpacing settings).

Lemma barSpans_preview_drawBar (x : Q) (v : Byte.byte) (rest : list CanvasOp) :
  barSpans (Preview.drawBar settings x v ++ rest)
  = (x, x + barWidth) :: barSpans rest.
Proof.
  unfold Preview.drawBar. cbv zeta.
  destruct (glow settings), (shape settings), (position settings); reflexivity.
Qed.

Lemma barSpans_preview_length (x : Q) (dataArray : list Byte.byte) :
  length (barSpans (Preview.drawBars settings x dataArray)) = length dataArray.
Proof.
  revert x. induction dataArray as [|v rest IH]; intros x; [reflexivity|].
  cbn [Preview.drawBars]. rewrite barSpans_preview_drawBar.
  cbn [length]. rewrite IH. reflexivity.
Qed.

Lemma barSpans_preview_lookup (x : Q) (dataArray : list Byte.byte)
    (j : nat) (left right : Q) :
  barSpans (Preview.drawBars settings x dataArray) !! j = Some (left, right) ->
  left == x + inject_Z (Z.of_nat j) * (barWidth + spacing)
  /\ right == left + barWidth.
Proof.
  revert x j. induction dataArray as [|v rest IH]; intros x j.
  - cbn [Preview.drawBars barSpans]. rewrite lookup_nil. discriminate.
  - cbn [Preview.drawBars]. rewrite barSpans_preview_drawBar.
    destruct j as [|j].
    + cbn [lookup list_lookup]. intros [= <- <-]. split; [|reflexivity].
      change (inject_Z (Z.of_nat 0)) with 0. ring.
    + rewrite lookup_cons. intros Hj. apply IH in Hj as [Hl Hr].
      split; [|exact Hr]. rewrite Hl.
      rewrite Nat2Z.inj_succ. unfold Z.succ. rewrite inject_Z_plus.
      change (inject_Z 1) with 1. ring.
Qed.

Lemma preview_barWidth_fills_width :
  128 * barWidth + 127 * spacing == 1280.
Proof.
  unfold Preview.barWidth, Preview.totalSpacing, Preview.totalWidth,
    Preview.canvasWidth.
  assert (H : Preview.totalBars == 128) by reflexivity.
  rewrite H. field.
Qed.

End PreviewSpans.

(** X11: in the preview, whatever the spacing and the shape, the 128 bars
    span the canvas edge to edge: bar [j] starts at
    [j * (barWidth + barSpacing)], so the first bar starts at 0, every two
    neighbours are [barSpacing] apart, and the last bar ends at 1280, the
    width of the canvas. *)
Theorem preview_bars_span_canvas (settings : VisualizerSettings)
    (written : list Byte.byte) :
  let barWidth := Preview.barWidth settings in
  let spans :=
    barSpans (Preview.draw settings
                (fillUint8Array Preview.bufferLength written)) in
  length spans = 128%nat
  /\ (forall j left right,
        spans !! j = Some (left, right) ->
        left == inject_Z (Z.of_nat j) * (barWidth + barSpacing settings)
        /\ right == left + barWidth)
  /\ (forall left right,
        spans !! 127%nat = Some (left, right) ->
        right == Preview.canvasWidth).
Proof.
  cbv zeta. unfold Preview.draw. cbn [barSpans].
  split; [|split].
  - rewrite barSpans_preview_length. apply length_fillUint8Array.
  - intros j left right Hj.
    apply barSpans_preview_lookup in Hj as [Hl Hr].
    split; [|exact Hr]. rewrite Hl. ring.
  - intros left right Hj.
    apply barSpans_preview_lookup in Hj as [Hl Hr].
    rewrite Hr, Hl. change (inject_Z (Z.of_nat 127)) with 127.
    pose proof (preview_barWidth_fills_width settings) as H.
    unfold Preview.canvasWidth. lra.
Qed.

Lemma preview_bars_span_canvas_witness :
  exists left right,
    barSpans (Preview.draw defaultSettings
                (fillUint8Array Preview.bufferLength [])) !! 127%nat
    = Some (left, right)
    /\ right == 1280.
Proof.
  destruct (barSpans (Preview.draw defaultSettings
                        (fillUint8Array Preview.bufferLength [])) !! 127%nat)
    as [[left right]|] eqn:Hj.
  - exists left, right. split; [reflexivity|].
    destruct (preview_bars_span_canvas defaultSettings []) as (_ & _ & Hlast).
    apply (Hlast left right). exact Hj.
  - exfalso. apply lookup_ge_None in Hj.
    destruct (preview_bars_span_canvas defaultSettings []) as (Hlen & _).
    cbv zeta in Hlen. rewrite Hlen in Hj. lia.
Defined.

(** ** The drawing loops that advance by [barWidth + 1] *)

Lemma inject_nat_succ (j : nat) :
  inject_Z (Z.of_nat (S j)) == inject_Z (Z.of_nat j) + 1.
Proof.
  rewrite Nat2Z.inj_succ. unfold Z.succ. rewrite inject_Z_plus. reflexivity.
Qed.

(** Comparing a scaled integer with a bound, in [Q] and in [Z]. *)
Lemma scaled_lt_iff (n num bound : Z) (den : positive) :
  inject_Z n * (num # den) < inject_Z bound
  <-> (n * num < bound * Z.pos den)%Z.
Proof.
  unfold Qlt, Qmult, inject_Z. cbn [Qnum Qden].
  rewrite Z.mul_1_r, Pos.mul_1_l. reflexivity.
Qed.


Lemma legacy_drawBars_lookup (x : Q) (dataArray : list Byte.byte)
    (j : nat) (v : Byte.byte) :
  dataArray !! j = Some v ->
  exists bar,
    LegacyExporter.drawBars x dataArray !! j = Some bar
    /\ LegacyExporter.barX bar
       == x + inject_Z (Z.of_nat j) * (LegacyExporter.barWidth + 1)
    /\ LegacyExporter.barW bar = LegacyExporter.barWidth
    /\ LegacyExporter.barH bar = byteValue v * 2
    /\ LegacyExporter.barTop bar = 720 - byteValue v * 2.
Proof.
  revert x j. induction dataArray as [|v0 rest IH]; intros x j Hj.
  - rewrite lookup_nil in Hj. discriminate Hj.
  - destruct j as [|j].
    + injection Hj as <-. eexists. split; [reflexivity|].
      cbn [LegacyExporter.barX LegacyExporter.barW LegacyExporter.barH
           LegacyExporter.barTop].
      split; [change (inject_Z (Z.of_nat 0)) with 0; ring|auto].
    + rewrite lookup_cons in Hj.
      destruct (IH (x + (LegacyExporter.barWidth + 1)) j Hj)
        as (bar & Hbar & Hx & Hrest).
      exists bar. split; [exact Hbar|]. split; [|exact Hrest].
      rewrite Hx, inject_nat_succ. ring.
Qed.

(** X12: in the exporter without settings the bars are 25 pixels wide and
    26 pixels apart, so bar [j] starts at [26 * j]: only bins 0 to 49 of
    the 128 start inside the 1280 pixels of the canvas, the other 78 are
    drawn off it.  Each bar is twice its bin's value high (at most 510)
    and stands on the lower edge. *)
Theorem legacy_exporter_draws_first_50_bins (dataArray : list Byte.byte)
    (j : nat) (v : Byte.byte) :
  dataArray !! j = Some v ->
  exists bar,
    LegacyExporter.drawBars 0 dataArray !! j = Some bar
    /\ LegacyExporter.barX bar == inject_Z (Z.of_nat j) * 26
    /\ LegacyExporter.barW bar == 25
    /\ (LegacyExporter.barX bar < 1280 <-> (j < 50)%nat)
    /\ 0 <= LegacyExporter.barH bar <= 510
    /\ LegacyExporter.barTop bar + LegacyExporter.barH bar == 720.
Proof.
  intros Hj.
  destruct (legacy_drawBars_lookup 0 dataArray j v Hj)
    as (bar & Hbar & Hx & Hw & Hh & Ht).
  exists bar. split; [exact Hbar|].
  assert (Hx26 : LegacyExporter.barX bar == inject_Z (Z.of_nat j) * (26 # 1)).
  { rewrite Hx. assert (H : LegacyExporter.barWidth + 1 == 26) by reflexivity.
    rewrite H. ring. }
  pose proof (byteValue_range v) as [Hv0 Hv255].
  split; [exact Hx26|].
  split; [rewrite Hw; reflexivity|].
  split.
  { rewrite Hx26. change 1280 with (inject_Z 1280).
    rewrite scaled_lt_iff. lia. }
  rewrite Ht, Hh. repeat split; lra.
Qed.

Lemma legacy_exporter_draws_first_50_bins_witness :
  exists bar,
    LegacyExporter.drawBars 0 (replicate 128 Byte.xff) !! 50%nat = Some bar
    /\ ~ LegacyExporter.barX bar < 1280.
Proof.
  destruct (legacy_exporter_draws_first_50_bins (replicate 128 Byte.xff)
              50 Byte.xff eq_refl)
    as (bar & Hbar & _ & _ & Hvis & _).
  exists bar. split; [exact Hbar|]. intros H. apply Hvis in H. lia.
Defined.




(** ** The ffmpeg-only processor *)

Section ProcessorRuns.

Variables audioFile imageFile : list Byte.byte.
Variable w : Processor.World.
Variable st : Processor.St.

(** The file system once both inputs are written. *)
Local Abbreviation withInputs :=
  (<["image.jpg"%string := rawBytes imageFile]>
     (<["audio.mp3"%string := rawBytes audioFile]> (Processor.fs st))).

Hypothesis fetch_audio : Processor.fetchFileOk w audioFile = true.
Hypothesis fetch_image : Processor.fetchFileOk w imageFile = true.
Hypothesis write_audio : Processor.writeFileOk w "audio.mp3" = true.
Hypothesis write_image : Processor.writeFileOk w "image.jpg" = true.

(** X14: when the inputs are fetched and written but [ffmpeg.exec] rejects,
    [processVideo] logs one error, sets no video URL and deletes nothing:
    [audio.mp3] and [image.jpg] stay in the file system with the bytes of
    the two files (the clean-up is inside the [try] block). *)
Theorem processVideo_exec_failure_leaves_inputs :
  Processor.encode w Processor.execArgs withInputs = None ->
  let st' := Processor.processVideo true true audioFile imageFile w st in
  Processor.videoUrl st' = Processor.videoUrl st
  /\ Processor.errors st' = S (Processor.errors st)
  /\ Processor.fs st' = withInputs
  /\ Processor.fs st' !! "audio.mp3"%string = Some (rawBytes audioFile)
  /\ Processor.fs st' !! "image.jpg"%string = Some (rawBytes imageFile).
Proof.
  intros Hexec. cbv zeta.
  unfold Processor.processVideo, Processor.processSteps.
  cbn [negb orb].
  unfold mbind, Processor.Step_bind, Processor.fetchFile, Processor.writeFile,
    Processor.exec.
  rewrite fetch_audio, write_audio. cbn [Processor.fs].
  rewrite fetch_image, write_image. cbn [Processor.fs].
  rewrite Hexec. cbn [Processor.fs Processor.videoUrl Processor.errors].
  repeat split.
  - rewrite lookup_insert_ne by discriminate. apply lookup_insert_eq.
  - apply lookup_insert_eq.
Qed.

(** X15: when every step fulfils, [ffmpeg.exec] runs on a file system that
    holds [audio.mp3] and [image.jpg] with the bytes of the two files, the
    video URL is set to the [output.mp4] the encoder left, no error is
    logged, and the three files are deleted afterwards: none of the three
    names is left, and every other path is as the encoder left it. *)
Theorem processVideo_success_cleans_up (encoded : gmap string File)
    (data : File) :
  Processor.encode w Processor.execArgs withInputs = Some encoded ->
  encoded !! "output.mp4"%string = Some data ->
  Processor.deleteFileOk w "audio.mp3" = true ->
  Processor.deleteFileOk w "image.jpg" = true ->
  Processor.deleteFileOk w "output.mp4" = true ->
  let st' := Processor.processVideo true true audioFile imageFile w st in
  Processor.videoUrl st' = Some ("video/mp4"%string, data)
  /\ Processor.errors st' = Processor.errors st
  /\ Processor.execCalls st'
     = Processor.execCalls st ++ [(Processor.execArgs, withInputs)]
  /\ withInputs !! "audio.mp3"%string = Some (rawBytes audioFile)
  /\ withInputs !! "image.jpg"%string = Some (rawBytes imageFile)
  /\ Processor.fs st' !! "audio.mp3"%string = None
  /\ Processor.fs st' !! "image.jpg"%string = None
  /\ Processor.fs st' !! "output.mp4"%string = None
  /\ (forall path,
        path <> "audio.mp3"%string -> path <> "image.jpg"%string ->
        path <> "output.mp4"%string ->
        Processor.fs st' !! path = encoded !! path).
Proof.
  intros Hexec Hout Hd1 Hd2 Hd3. cbv zeta.
  unfold Processor.processVideo, Processor.processSteps.
  cbn [negb orb].
  unfold mbind, Processor.Step_bind, Processor.fetchFile, Processor.writeFile,
    Processor.exec, Processor.readFile, Processor.setVideoUrl,
    Processor.deleteFile.
  rewrite fetch_audio, write_audio. cbn [Processor.fs].
  rewrite fetch_image, write_image. cbn [Processor.fs].
  rewrite Hexec. cbn [Processor.fs]. rewrite Hout.
  rewrite Hd1. cbn [Processor.fs]. rewrite Hd2. cbn [Processor.fs].
  rewrite Hd3.
  cbn [Processor.fs Processor.videoUrl Processor.errors Processor.execCalls].
  split; [reflexivity|]. split; [reflexivity|]. split; [reflexivity|].
  split; [rewrite lookup_insert_ne by discriminate; apply lookup_insert_eq|].
  split; [apply lookup_insert_eq|].
  split.
  { rewrite lookup_delete_ne by discriminate.
    rewrite lookup_delete_ne by discriminate. apply lookup_delete_eq. }
  split.
  { rewrite lookup_delete_ne by discriminate. apply lookup_delete_eq. }
  split; [apply lookup_delete_eq|].
  intros path H1 H2 H3.
  rewrite !lookup_delete_ne by congruence. reflexivity.
Qed.

(** X16: the video URL is set before the clean-up: when everything fulfils
    up to the first [deleteFile] and that one rejects, the video URL is
    set all the same, one error is logged, and nothing at all is deleted:
    the file system is as the encoder left it. *)
Theorem processVideo_url_survives_failed_cleanup (encoded : gmap string File)
    (data : File) :
  Processor.encode w Processor.execArgs withInputs = Some encoded ->
  encoded !! "output.mp4"%string = Some data ->
  Processor.deleteFileOk w "audio.mp3" = false ->
  let st' := Processor.processVideo true true audioFile imageFile w st in
  Processor.videoUrl st' = Some ("video/mp4"%string, data)
  /\ Processor.errors st' = S (Processor.errors st)
  /\ Processor.fs st' = encoded.
Proof.
  intros Hexec Hout Hd1. cbv zeta.
  unfold Processor.processVideo, Processor.processSteps.
  cbn [negb orb].
  unfold mbind, Processor.Step_bind, Processor.fetchFile, Processor.writeFile,
    Processor.exec, Processor.readFile, Processor.setVideoUrl,
    Processor.deleteFile.
  rewrite fetch_audio, write_audio. cbn [Processor.fs].
  rewrite fetch_image, write_image. cbn [Processor.fs].
  rewrite Hexec. cbn [Processor.fs]. rewrite Hout.
  rewrite Hd1. auto.
Qed.

End ProcessorRuns.

(** X17: the progress the processor shows is the encoder's progress as a
    whole percentage: for a progress between 0 and 1 it lies between 0 and
    100, and it does not go down when the encoder's progress goes up. *)
Theorem ffmpeg_progress_is_percentage (progress later : Q) :
  0 <= progress -> progress <= later -> later <= 1 ->
  (0 <= Processor.onFfmpegProgress progress
   <= Processor.onFfmpegProgress later)%Z
  /\ (Processor.onFfmpegProgress later <= 100)%Z.
Proof.
  intros H0 Hle H1. unfold Processor.onFfmpegProgress.
  pose proof (Math_round_bounds (progress * 100) 0 100) as Hp.
  pose proof (Math_round_bounds (later * 100) 0 100) as Hl.
  change (inject_Z 0) with 0 in *. change (inject_Z 100) with 100 in *.
  assert (Hmono : (JS.Math_round (progress * 100)
                   <= JS.Math_round (later * 100))%Z)
    by (apply Math_round_mono; lra).
  assert (0 <= progress * 100) by lra. assert (progress * 100 <= 100) by lra.
  assert (0 <= later * 100) by lra. assert (later * 100 <= 100) by lra.
  specialize (Hp ltac:(assumption) ltac:(assumption)).
  specialize (Hl ltac:(assumption) ltac:(assumption)).
  lia.
Qed.

Lemma ffmpeg_progress_is_percentage_witness :
  (0 <= Processor.onFfmpegProgress (1 # 3)
   <= Processor.onFfmpegProgress (2 # 3))%Z
  /\ (Processor.onFfmpegProgress (2 # 3) <= 100)%Z.
Proof.
  apply (ffmpeg_progress_is_percentage (1 # 3) (2 # 3)); discriminate.
Defined.

Lemma processVideo_exec_failure_leaves_inputs_witness :
  let st' :=
    Processor.processVideo true true [] [] (sampleEncoder false true)
      freshProcessor in
  Processor.videoUrl st' = Processor.videoUrl freshProcessor
  /\ Processor.errors st' = S (Processor.errors freshProcessor)
  /\ Processor.fs st'
     = <["image.jpg"%string := rawBytes []]>
         (<["audio.mp3"%string := rawBytes []]> (Processor.fs freshProcessor))
  /\ Processor.fs st' !! "audio.mp3"%string = Some (rawBytes [])
  /\ Processor.fs st' !! "image.jpg"%string = Some (rawBytes []).
Proof.
  apply (processVideo_exec_failure_leaves_inputs [] [] (sampleEncoder false true)
           freshProcessor); reflexivity.
Defined.

Lemma processVideo_success_cleans_up_witness :
  Processor.videoUrl
    (Processor.processVideo true true [] [] (sampleEncoder true true)
       freshProcessor)
  = Some ("video/mp4"%string, rawBytes []).
Proof.
  apply (processVideo_success_cleans_up [] [] (sampleEncoder true true)
           freshProcessor eq_refl eq_refl eq_refl eq_refl
           (<["output.mp4"%string := rawBytes []]>
              (<["image.jpg"%string := rawBytes []]>
                 (<["audio.mp3"%string := rawBytes []]> ∅)))
           (rawBytes [])); reflexivity.
Defined.

Lemma processVideo_url_survives_failed_cleanup_witness :
  Processor.videoUrl
    (Processor.processVideo true true [] [] (sampleEncoder true false)
       freshProcessor)
  = Some ("video/mp4"%string, rawBytes []).
Proof.
  apply (processVideo_url_survives_failed_cleanup [] [] (sampleEncoder true false)
           freshProcessor eq_refl eq_refl eq_refl eq_refl
           (<["output.mp4"%string := rawBytes []]>
              (<["image.jpg"%string := rawBytes []]>
                 (<["audio.mp3"%string := rawBytes []]> ∅)))
           (rawBytes [])); reflexivity.
Defined.


(** ** The page *)

Lemma pageInvariant_initial : pageInvariant Home.initial.
Proof. repeat split; cbn; intros; discriminate. Qed.

Lemma accepted_type (prefix : string) (files : list Home.DroppedFile)
    (f : Home.DroppedFile) :
  Home.accepted prefix files = Some f ->
  String.prefix prefix (Home.fileType f) = true.
Proof.
  destruct files as [|file files]; cbn; [discriminate|].
  destruct (String.prefix prefix (Home.fileType file)) eqn:H; [|discriminate].
  intros [= <-]. exact H.
Qed.

Lemma pageInvariant_step (st : Home.State) (a : Home.Action) :
  pageInvariant st -> pageInvariant (Home.step st a).
Proof.
  intros Hinv. pose proof Hinv as (Ha & Hi & Hp & Hv & He).
  destruct a as [files|files| | | |p|url|e]; cbn [Home.step].
  - unfold Home.onDropAudio.
    destruct (Home.accepted "audio/" files) as [file|] eqn:Hacc;
      [|exact Hinv].
    unfold pageInvariant, Home.filesMissing in *.
    cbn [Home.audioFile Home.imageFile Home.isProcessing Home.isPreviewing
         Home.exportError].
    refine (conj _ (conj Hi (conj _ (conj _ He)))).
    + intros f [= <-]. exact (accepted_type _ _ _ Hacc).
    + intros H. specialize (Hp H). destruct (Home.audioFile st); [exact Hp|].
      discriminate Hp.
    + intros H. specialize (Hv H). destruct (Home.audioFile st); [exact Hv|].
      discriminate Hv.
  - unfold Home.onDropImage.
    destruct (Home.accepted "image/" files) as [file|] eqn:Hacc;
      [|exact Hinv].
    unfold pageInvariant, Home.filesMissing in *.
    cbn [Home.audioFile Home.imageFile Home.isProcessing Home.isPreviewing
         Home.exportError].
    refine (conj Ha (conj _ (conj _ (conj _ He)))).
    + intros f [= <-]. exact (accepted_type _ _ _ Hacc).
    + intros H. specialize (Hp H). destruct (Home.audioFile st); [|exact Hp].
      destruct (Home.imageFile st); [reflexivity|discriminate Hp].
    + intros H. specialize (Hv H). destruct (Home.audioFile st); [|exact Hv].
      destruct (Home.imageFile st); [reflexivity|discriminate Hv].
  - destruct (Home.buttonsDisabled st); [exact Hinv|].
    unfold Home.handlePreview.
    destruct (Home.filesMissing st) eqn:Hm; [exact Hinv|].
    exact (conj Ha (conj Hi (conj (fun _ => Hm) (conj (fun _ => Hm) He)))).
  - destruct (Home.buttonsDisabled st); [exact Hinv|].
    unfold Home.handleExport.
    destruct (Home.filesMissing st) eqn:Hm; [exact Hinv|].
    exact (conj Ha (conj Hi (conj (fun _ => Hm) (conj (fun _ => Hm)
             (fun _ => eq_refl))))).
  - exact Hinv.
  - exact Hinv.
  - refine (conj Ha (conj Hi (conj _ (conj Hv _)))); cbn; discriminate.
  - refine (conj Ha (conj Hi (conj _ (conj Hv _)))); cbn; discriminate.
Qed.

Lemma pageInvariant_steps (st : Home.State) (actions : list Home.Action) :
  pageInvariant st -> pageInvariant (Home.steps st actions).
Proof.
  revert st. induction actions as [|a actions IH]; intros st Hst; [exact Hst|].
  cbn [Home.steps fold_left]. apply IH, pageInvariant_step, Hst.
Qed.

(** X18: whatever is dropped and clicked and whatever the exporter calls
    back, the audio file the page holds has a MIME type starting with
    [audio/] and the image file one starting with [image/]. *)
Theorem page_files_have_accepted_type (actions : list Home.Action) :
  let st := Home.steps Home.initial actions in
  (forall f, Home.audioFile st = Some f ->
     String.prefix "audio/" (Home.fileType f) = true)
  /\ (forall f, Home.imageFile st = Some f ->
        String.prefix "image/" (Home.fileType f) = true).
Proof.
  cbv zeta.
  destruct (pageInvariant_steps Home.initial actions pageInvariant_initial)
    as (Ha & Hi & _).
  split; assumption.
Qed.

(** X19: the page mounts [VideoExporter] and the preview [VideoProcessor]
    only while both files are present, so the non-null assertions
    [audioFile!] and [imageFile!] on their props never see [null]. *)
Theorem page_mounts_components_with_files (actions : list Home.Action) :
  let st := Home.steps Home.initial actions in
  (Home.exporterMounted st = true \/ Home.isPreviewing st = true) ->
  exists audio image,
    Home.audioFile st = Some audio /\ Home.imageFile st = Some image.
Proof.
  cbv zeta. intros Hmounted.
  destruct (pageInvariant_steps Home.initial actions pageInvariant_initial)
    as (_ & _ & Hp & Hv & _).
  assert (Hm : Home.filesMissing (Home.steps Home.initial actions) = false).
  { destruct Hmounted as [H|H]; [apply Hp|apply Hv]; exact H. }
  unfold Home.filesMissing in Hm.
  destruct (Home.audioFile _) as [audio|]; [|discriminate Hm].
  destruct (Home.imageFile _) as [image|]; [|discriminate Hm].
  eauto.
Qed.

Lemma page_mounts_components_with_files_witness :
  exists audio image,
    Home.audioFile exportingPage = Some audio
    /\ Home.imageFile exportingPage = Some image.
Proof.
  apply (page_mounts_components_with_files
           [Home.DropAudio [sampleSong]; Home.DropImage [sampleCover];
            Home.ClickExport]).
  left. reflexivity.
Defined.

(** X20: the page never shows the export error.  The paragraph with
    [exportError] is rendered inside the [isProcessing] overlay, [onError]
    sets the error together with [setIsProcessing(false)], and
    [handleExport] clears the error when it sets [isProcessing] (React
    batches the state updates of one callback into one render): in every
    reachable state the paragraph is not rendered. *)
Theorem page_never_shows_export_error (actions : list Home.Action) :
  Home.errorShown (Home.steps Home.initial actions) = false.
Proof.
  destruct (pageInvariant_steps Home.initial actions pageInvariant_initial)
    as (_ & _ & _ & _ & He).
  unfold Home.errorShown.
  destruct (Home.isProcessing _); [|reflexivity].
  rewrite (He eq_refl). reflexivity.
Qed.

(** Progress reports and the exporter's internal events leave the flags,
    the files, the error and the URL of the page alone. *)
Lemma deliverAll_app (st : Home.State) (evs evs' : list Event) :
  deliverAll st (evs ++ evs') = deliverAll (deliverAll st evs) evs'.
Proof. apply fold_left_app. Qed.

Lemma deliverAll_no_terminal (st : Home.State) (evs : list Event) :
  existsb isTerminal evs = false ->
  let st' := deliverAll st evs in
  Home.audioFile st' = Home.audioFile st
  /\ Home.imageFile st' = Home.imageFile st
  /\ Home.isProcessing st' = Home.isProcessing st
  /\ Home.exportError st' = Home.exportError st
  /\ Home.exportedVideoUrl st' = Home.exportedVideoUrl st.
Proof.
  cbv zeta. revert st.
  induction evs as [|e evs IH]; intros st Hno; [repeat split|].
  cbn [existsb] in Hno. apply orb_false_iff in Hno as [He Hno].
  cbn [deliverAll fold_left]. specialize (IH (deliver st e) Hno).
  unfold deliverAll in IH.
  destruct IH as (-> & -> & -> & -> & ->).
  destruct e; try discriminate He; repeat split.
Qed.

(** X21: the page and an exporter, composed.  When the callbacks of a run
    end with one terminal callback, the page leaves the processing state
    and its buttons are enabled again if both files are there.  After
    [onComplete] it offers that run's URL for download.  After [onError]
    it holds the message but does not show it, and it offers whatever URL
    an earlier export left: the download link of the previous video, or
    none. *)
Theorem export_run_releases_page (st : Home.State) (before : list Event)
    (last : Event) :
  existsb isTerminal before = false ->
  isTerminal last = true ->
  let st' := deliverAll st (before ++ [last]) in
  Home.isProcessing st' = false
  /\ Home.errorShown st' = false
  /\ Home.buttonsDisabled st' = Home.filesMissing st
  /\ (forall url, last = onComplete url ->
        Home.exportedVideoUrl st' = Some url
        /\ Home.downloadShown st' = true
        /\ Home.exportError st' = Home.exportError st)
  /\ (forall error, last = onError error ->
        Home.exportError st' = Some error
        /\ Home.exportedVideoUrl st' = Home.exportedVideoUrl st
        /\ Home.downloadShown st'
           = bool_decide (is_Some (Home.exportedVideoUrl st))).
Proof.
  intros Hbefore Hlast. cbv zeta. rewrite deliverAll_app.
  destruct (deliverAll_no_terminal st before Hbefore)
    as (Ha & Hi & Hp & He & Hu).
  set (mid := deliverAll st before) in *.
  assert (Hmiss : Home.filesMissing mid = Home.filesMissing st)
    by (unfold Home.filesMissing; rewrite Ha, Hi; reflexivity).
  destruct last as [p|url|msg|t d|path d|args files|path];
    try discriminate Hlast;
    cbn [deliverAll fold_left deliver].
  - unfold Home.errorShown, Home.buttonsDisabled, Home.downloadShown.
    change (Home.filesMissing (Home.onComplete url mid))
      with (Home.filesMissing mid).
    cbn [Home.onComplete Home.isProcessing Home.exportError
         Home.exportedVideoUrl andb negb].
    rewrite Hmiss, orb_false_r, He.
    split; [reflexivity|]. split; [reflexivity|]. split; [reflexivity|].
    split; [|intros error' [=]].
    intros url' [= <-]. split; [reflexivity|]. split; [|reflexivity].
    rewrite andb_true_r. apply bool_decide_eq_true. eauto.
  - unfold Home.errorShown, Home.buttonsDisabled, Home.downloadShown.
    change (Home.filesMissing (Home.onError msg mid))
      with (Home.filesMissing mid).
    cbn [Home.onError Home.isProcessing Home.exportError
         Home.exportedVideoUrl andb negb].
    rewrite Hmiss, orb_false_r, Hu.
    split; [reflexivity|]. split; [reflexivity|]. split; [reflexivity|].
    split; [intros url' [=]|].
    intros error' [= <-]. split; [reflexivity|]. split; [reflexivity|].
    apply andb_true_r.
Qed.

Lemma export_run_releases_page_witness :
  Home.isProcessing
    (deliverAll exportingPage
       (events (VideoExporter.run (an:=sampleCounter) sampleProps
                  (troubledWorld true true false None true (Some [])))))
  = false.
Proof.
  apply (export_run_releases_page exportingPage
           [onProgress 0; onProgress 10]
           (onError "Failed to export video")); reflexivity.
Defined.

(** X22: as long as the exporter has invoked neither [onComplete] nor
    [onError], the page that started it stays in the processing state:
    both buttons are disabled, no download link is shown, and clicks on
    [Preview] and [Export Video] change nothing.  An exporter whose image
    never loads reports progress 0 and nothing more, so the page stays
    like this for good. *)
Theorem stalled_run_locks_page (st : Home.State) (evs : list Event) :
  Home.filesMissing st = false ->
  existsb isTerminal evs = false ->
  let st' := deliverAll (Home.handleExport st) evs in
  Home.exporterMounted st' = true
  /\ Home.buttonsDisabled st' = true
  /\ Home.downloadShown st' = false
  /\ Home.errorShown st' = false
  /\ Home.steps st' [Home.ClickExport; Home.ClickPreview] = st'.
Proof.
  intros Hfiles Hno. cbv zeta.
  destruct (deliverAll_no_terminal (Home.handleExport st) evs Hno)
    as (Ha & Hi & Hp & He & Hu).
  set (st' := deliverAll (Home.handleExport st) evs) in *.
  unfold Home.handleExport in Hp, He. rewrite Hfiles in Hp, He.
  cbn [Home.isProcessing Home.exportError] in Hp, He.
  assert (Hdis : Home.buttonsDisabled st' = true)
    by (unfold Home.buttonsDisabled; rewrite Hp; apply orb_true_r).
  unfold Home.exporterMounted, Home.downloadShown, Home.errorShown.
  rewrite Hp, He. cbn [negb andb].
  split; [reflexivity|]. split; [exact Hdis|].
  split; [apply andb_false_r|]. split; [reflexivity|].
  cbn [Home.steps fold_left Home.step]. rewrite Hdis. cbv iota.
  rewrite Hdis. reflexivity.
Qed.

Lemma stalled_run_locks_page_witness :
  Home.buttonsDisabled
    (deliverAll
       (Home.handleExport
          (Home.steps Home.initial
             [Home.DropAudio [sampleSong]; Home.DropImage [sampleCover]]))
       (events (VideoExporter.run (an:=sampleCounter) sampleProps
                  (troubledWorld true false true None true (Some [])))))
  = true.
Proof.
  apply (stalled_run_locks_page
           (Home.steps Home.initial
              [Home.DropAudio [sampleSong]; Home.DropImage [sampleCover]])
           (events (VideoExporter.run (an:=sampleCounter) sampleProps
                      (troubledWorld true false true None true (Some [])))));
    reflexivity.
Defined.

(** ** The upload server *)

(** X23: the upload handler answers 400 only when [req.files] is absent.
    It answers with both paths exactly when each of the two fields carries
    a file.  A request whose files object lacks the audio or the image
    field, or has an empty array there, gets no answer from the handler:
    reading [[0].path] throws. *)
Theorem upload_answers_400_only_without_files
    (files : option (gmap string (list Server.UploadedFile))) :
  (forall error,
     Server.upload files = Some (Server.status400 error)
     <-> files = None /\ error = "No files uploaded"%string)
  /\ (forall audioPath imagePath,
        Server.upload files = Some (Server.json200 audioPath imagePath)
        <-> exists fields audio audios image images,
              files = Some fields
              /\ fields !! "audio"%string = Some (audio :: audios)
              /\ fields !! "image"%string = Some (image :: images)
              /\ audioPath = Server.path audio
              /\ imagePath = Server.path image)
  /\ (Server.upload files = None
      <-> exists fields,
            files = Some fields
            /\ (head (default [] (fields !! "audio"%string)) = None
                \/ head (default [] (fields !! "image"%string)) = None)).
Proof.
  destruct files as [fields|]; cbn [Server.upload].
  - destruct (fields !! "audio"%string) as [[|audio audios]|] eqn:Haudio;
      [| destruct (fields !! "image"%string) as [[|image images]|] eqn:Himage
       |].
    all: split; [intros error; split; [discriminate|intros [[=] _]]|].
    all: split.
    all: try (intros a i; split;
              [discriminate
              |intros (fields' & au & aus & im & ims & [= <-] & H1 & H2 & _);
               rewrite ?Haudio, ?Himage in *; discriminate]).
    all: try (split; [intros _|reflexivity]; exists fields;
              split; [reflexivity|]; rewrite ?Haudio, ?Himage; cbn; auto).
    + intros a i. split.
      * intros [= <- <-]. exists fields, audio, audios, image, images. auto.
      * intros (fields' & au & aus & im & ims & [= <-] & H1 & H2 & -> & ->).
        rewrite Haudio in H1. rewrite Himage in H2.
        injection H1 as <- _. injection H2 as <- _. reflexivity.
    + split; [discriminate|].
      intros (fields' & [= <-] & [H|H]);
        rewrite ?Haudio, ?Himage in H; discriminate H.
  - split; [intros error; split; [intros [= <-]; auto|intros [_ ->]; reflexivity]|].
    split; [intros a i; split; [discriminate|intros (? & ? & ? & ? & ? & [=] & _)]|].
    split; [discriminate|intros (? & [=] & _)].
Qed.

(** ** Colours within range *)

Lemma share_in_unit (height maxHeight : Q) :
  0 < maxHeight -> 0 <= height <= maxHeight ->
  0 <= height / maxHeight <= 1.
Proof.
  intros Hm [H0 H1]. split.
  - apply Qle_shift_div_l; [exact Hm|]. lra.
  - apply Qle_shift_div_r; [exact Hm|]. lra.
Qed.

Lemma getColorForScheme_inGamut (settings : VisualizerSettings)
    (height maxHeight : Q) :
  0 < maxHeight -> 0 <= height <= maxHeight ->
  inGamut (getColorForScheme settings height maxHeight).
Proof.
  intros Hm Hh. pose proof (share_in_unit height maxHeight Hm Hh) as Hp.
  unfold getColorForScheme. cbv zeta.
  set (p := height / maxHeight) in *.
  destruct (colorScheme settings); cbn [inGamut]; lra.
Qed.

(** X24: with a height scale between 0 and 1, every bar of every frame is
    filled with a colour inside the CSS ranges, whatever the scheme and
    the spectrum: channels within 0..255, hue within 0..360, alpha within
    0..1.  (Above 1 the channels leave the range, see C7; the page's slider
    goes up to 2.) *)
Theorem bar_colors_in_gamut_up_to_full_scale (settings : VisualizerSettings)
    (v : Byte.byte) :
  0 <= barHeight settings <= 1 ->
  inGamut
    (getColorForScheme settings (Exporter.barHeightPx settings v)
       Exporter.maxBarHeight).
Proof.
  intros [H0 H1]. apply getColorForScheme_inGamut.
  - reflexivity.
  - pose proof (byteValue_range v) as [Hv0 Hv255].
    unfold Exporter.barHeightPx, Exporter.maxBarHeight.
    assert (Hprod : 0 <= byteValue v * barHeight settings <= 255) by nra.
    set (s := byteValue v * barHeight settings) in *.
    assert (Hq : 720 * (3 # 10) / 255 == 216 # 255) by reflexivity.
    rewrite Hq. lra.
Qed.

Lemma bar_colors_in_gamut_up_to_full_scale_witness :
  inGamut
    (getColorForScheme defaultSettings
       (Exporter.barHeightPx defaultSettings Byte.xff) Exporter.maxBarHeight).
Proof.
  apply (bar_colors_in_gamut_up_to_full_scale defaultSettings Byte.xff).
  split; discriminate.
Defined.

(** ** The clock of a capture *)

Lemma costBefore_nonneg (w : World) (frame : nat) :
  (forall j, 0 <= frameCost w j) -> 0 <= costBefore w frame.
Proof.
  intros Hcost. induction frame as [|frame IH]; cbn [costBefore]; [lra|].
  specialize (Hcost frame). lra.
Qed.

Lemma totalFrames_covers_duration (b : AudioBuffer) :
  duration b
  <= inject_Z (Z.of_nat (Z.to_nat (Exporter.totalFrames b))) / 30.
Proof.
  unfold Exporter.totalFrames, Exporter.fps, JS.Math_ceil.
  pose proof (Qle_ceiling (duration b * 30)) as Hceil.
  set (n := Qceiling (duration b * 30)) in *.
  assert (Hn : inject_Z n <= inject_Z (Z.of_nat (Z.to_nat n)))
    by (rewrite <- Zle_Qle; lia).
  apply Qle_shift_div_l; [reflexivity|]. lra.
Qed.

Section RunClock.

Context {an : AnalyserNode}.
Variables canvasWidth canvasHeight : Q.
Variable shadowOps : VisualizerSettings -> Color -> list CanvasOp.
Variable encoderArgs : list string.
Variables outputFile mimeType : string.
Variables audioFile imageFile : list Byte.byte.
Variable settings : VisualizerSettings.
Variable w : World.

Local Abbreviation run :=
  (Exporter.run (an:=an) canvasWidth canvasHeight shadowOps encoderArgs
     outputFile mimeType audioFile imageFile settings w).

Lemma run_final_playback (b : AudioBuffer) :
  ffmpegLoads w = true ->
  imageLoads w imageFile = true ->
  decodeAudioData w audioFile = Some b ->
  playback (run.1.2)
  = Trace.playbackAt w (framesWritten w (Z.to_nat (Exporter.totalFrames b)) 0).
Proof.
  intros Hload Himg Hdec.
  unfold Exporter.run, Exporter.load, Exporter.ffmpegLoad, tryCatch.
  rewrite Hload.
  unfold mbind, Async_bind, bind, mret, Async_ret, ret.
  unfold Exporter.exportVideo, tryCatch, mbind, Async_bind, bind, emit,
    Exporter.setupCanvas, Exporter.decodeAudio.
  cbn [fs canvas playback analyser Exporter.mounted].
  rewrite Himg, Hdec.
  unfold mret, Async_ret, ret.
  change {| fs := ∅; canvas := []; playback := 0;
            analyser := createAnalyser an |} with (Exporter.mounted (an:=an)).
  rewrite (captureFrames_mounted canvasWidth canvasHeight shadowOps settings w b).
  cbv zeta.
  pose proof (framesWritten_le w (Z.to_nat (Exporter.totalFrames b)) 0) as Hle.
  destruct (decide _) as [Hlt|Hge]; [reflexivity|].
  replace (framesWritten w (Z.to_nat (Exporter.totalFrames b)) 0)
    with (Z.to_nat (Exporter.totalFrames b)) by lia.
  unfold Exporter.exec, Exporter.readFile.
  destruct (execOk w); [|reflexivity].
  destruct (readOutput w); reflexivity.
Qed.

(** X25: an export is never faster than real time.  The capture loop plays
    the audio and waits one frame time per frame, so when no iteration
    takes less than its timer wait and every frame is written, the
    playback clock has reached at least the duration of the audio by the
    time the encoder is started: exporting a clip takes at least as long
    as playing it. *)
Theorem capture_takes_at_least_audio_duration (b : AudioBuffer) :
  ffmpegLoads w = true ->
  imageLoads w imageFile = true ->
  decodeAudioData w audioFile = Some b ->
  (forall j, 0 <= frameCost w j) ->
  (forall i, writeFileOk w i = true) ->
  duration b <= playback (run.1.2).
Proof.
  intros Hload Himg Hdec Hcost Hok.
  rewrite (run_final_playback b Hload Himg Hdec).
  rewrite (framesWritten_all w _ 0 Hok).
  rewrite playbackAt_closed.
  pose proof (totalFrames_covers_duration b).
  pose proof (costBefore_nonneg w (Z.to_nat (Exporter.totalFrames b)) Hcost).
  lra.
Qed.

End RunClock.

Lemma capture_takes_at_least_audio_duration_witness :
  duration (clip (1 # 10))
  <= playback
       (VideoExporter.run (an:=sampleCounter) sampleProps
          (smoothWorld (clip (1 # 10)) (1 # 100))).1.2.
Proof.
  apply (capture_takes_at_least_audio_duration (an:=sampleCounter)
           VideoExporter.canvasWidth VideoExporter.canvasHeight
           VideoExporter.shadowOps VideoExporter.encoderArgs
           VideoExporter.outputFile VideoExporter.mimeType [] []
           defaultSettings (smoothWorld (clip (1 # 10)) (1 # 100))
           (clip (1 # 10))); try reflexivity.
  intros j. discriminate.
Defined.
